(** * graccQuery: the GRACC summary query of src/index.ts

    The script posts one Elasticsearch aggregation query and folds the
    buckets of the answer into an [AnalysisResult].  The embedding below
    follows [graccQuery] statement by statement.  JavaScript values are
    kept untyped, as they are at run time: the TypeScript type [Root] that
    the source asserts for the response body is a view on such a value, so
    that the behaviour on bodies of another shape can be stated too.

    Numbers are IEEE-754 doubles (Rocq's primitive [float]).  The effects of
    the function (the HTTP request, the console, the two file writes) are
    recorded in a trace, next to the way the call completes.

    Every step that can throw is kept: [toISOString] on an invalid Date,
    [fetch] that rejects, [res.json()] on a body that is not JSON, a
    property read on [undefined] or [null], a method call on a value that
    has no such method.  [graccQuery] catches nothing, so each of them ends
    the call with the events that came before it. *)

From Stdlib Require Import List String ZArith PrimFloat SpecFloat FloatOps
  DecimalString.
From ExtLib Require Import Structures.Monad Data.Monads.OptionMonad.
Import ListNotations MonadNotation.
Local Open Scope string_scope.
Local Open Scope monad_scope.

Set Implicit Arguments.
Set Warnings "-register-all".

(** ** JavaScript values *)

(** What [JSON.parse] and object literals produce, plus [undefined]. An
    object is the list of its own properties in insertion order. *)
Inductive value : Type :=
| VUndefined
| VNull
| VBool (b : bool)
| VNum (n : float)
| VStr (s : string)
| VArr (elems : list value)
| VObj (props : list (string * value)).

(** The errors that the calls of [graccQuery] throw: a TypeError from a
    property read, a method call or [+]; a RangeError from [toISOString]; a
    SyntaxError from [res.json()]. *)
Inductive exn : Type :=
| TypeError
| RangeError
| SyntaxError.

(** A call either completes normally or throws. *)
Inductive completion (A : Type) : Type :=
| Normal (a : A)
| Throw (e : exn).
Arguments Normal {A} a.
Arguments Throw {A} e.

#[global] Instance Monad_completion : Monad completion :=
  {| ret := fun _ a => Normal a;
     bind := fun _ _ c k =>
       match c with
       | Normal a => k a
       | Throw e => Throw e
       end |}.

(** Own property lookup. *)
Fixpoint own (props : list (string * value)) (p : string) : option value :=
  match props with
  | [] => None
  | (q, v) :: rest => if String.eqb p q then Some v else own rest p
  end.

(** [v.p] for a data property name [p], that is a name that no built-in
    prototype defines (all the names [graccQuery] reads are such): reading a
    property of [undefined] or [null] throws a TypeError, a missing property
    reads as [undefined]. *)
Definition get (v : value) (p : string) : completion value :=
  match v with
  | VUndefined | VNull => Throw TypeError
  | VObj props =>
      Normal match own props p with Some x => x | None => VUndefined end
  | VBool _ | VNum _ | VStr _ | VArr _ => Normal VUndefined
  end.

(** ToBoolean, which decides [a || b]. *)
Definition truthy_number (n : float) : bool :=
  negb (PrimFloat.eqb n 0 || PrimFloat.is_nan n).

Definition truthy (v : value) : bool :=
  match v with
  | VUndefined | VNull => false
  | VBool b => b
  | VNum n => truthy_number n
  | VStr s => negb (String.eqb s "")
  | VArr _ | VObj _ => true
  end.

(** [Array.prototype.reduce] with an initial value, and
    [Array.prototype.map]. On a value parsed from JSON that is not an array
    the method is missing (or the receiver is [undefined]), so the call
    throws a TypeError. A callback that throws ends the iteration. *)
Module Array.

Fixpoint reduce_from (cb : value -> value -> completion value)
    (elems : list value) (acc : value) : completion value :=
  match elems with
  | [] => Normal acc
  | x :: rest => acc' <- cb acc x ;; reduce_from cb rest acc'
  end.

Definition reduce (arr : value) (cb : value -> value -> completion value)
    (init : value) : completion value :=
  match arr with
  | VArr elems => reduce_from cb elems init
  | _ => Throw TypeError
  end.

Fixpoint map_elems (cb : value -> completion value) (elems : list value)
    : completion (list value) :=
  match elems with
  | [] => Normal []
  | x :: rest => y <- cb x ;; ys <- map_elems cb rest ;; ret (y :: ys)
  end.

Definition map (arr : value) (cb : value -> completion value)
    : completion value :=
  match arr with
  | VArr elems => ys <- map_elems cb elems ;; ret (VArr ys)
  | _ => Throw TypeError
  end.

End Array.

(** ** The platform

    Built-ins of the JavaScript engine that the source calls and whose
    results are only passed on. [Date] is the type of Date objects;
    [toISOString] has no result on an invalid date (one whose time value is
    NaN), on which the method throws a RangeError. [Number_toString] is the
    conversion a template literal applies to a number. [plus_coerce] is
    [a + b] when one operand is not a number (string concatenation and the
    ToPrimitive and ToNumber coercions); it has no result when the coercion
    throws, which it does with a TypeError. *)
Class Platform : Type :=
  { Date : Type;
    toISOString : Date -> option string;
    Number_toString : float -> string;
    plus_coerce : value -> value -> option value }.

(** ** Effects *)

(** The text [JSON.stringify(v)] or [JSON.stringify(v, null, n)] returns is
    kept as the call that produced it. *)
Inductive text : Type :=
| JSON_stringify (v : value) (space : option nat).

Record RequestInit : Type :=
  { method : string;
    body : text;
    headers : list (string * string) }.

(** What [fetch] resolves to: the [ok] flag of the status, and what
    [res.json()] settles with, the parsed body or, when the body is not
    JSON text (an empty body, an HTML error page), the SyntaxError that it
    rejects with. *)
Record Response : Type :=
  { ok : bool;
    json : completion value }.

(** The effects of a call, in the order they happen. [WriteFile] is
    [fs.writeFile(file, data, callback)]: the write is started and not
    awaited; [on_error] is the message its callback sends to
    [console.error] if the write fails. *)
Inductive event : Type :=
| Fetch (url : string) (init : RequestInit)
| ConsoleError (msg : string)
| ConsoleLog (v : value)
| WriteFile (file : string) (data : text) (on_error : string).

(** An effectful computation: its trace and its completion. *)
Definition io (A : Type) : Type := (list event * completion A)%type.

#[global] Instance Monad_io : Monad io :=
  {| ret := fun _ a => ([], Normal a);
     bind := fun A B (c : io A) (k : A -> io B) =>
       match c with
       | (t, Normal a) => let (t', r) := k a in ((t ++ t')%list, r)
       | (t, Throw e) => (t, Throw e)
       end |}.

Definition emit (e : event) : io unit := ([e], Normal tt).

(** A step without effects, which may throw. *)
Definition pure {A : Type} (c : completion A) : io A := ([], c).

Definition trace {A : Type} (c : io A) : list event := fst c.

Definition outcome {A : Type} (c : io A) : completion A := snd c.

(** ** The source: constants *)

Definition responseBodyOutputFile : option string := Some "responseOut.json".
Definition dataOutputFile : option string := Some "dataOut.json".

Definition summaryIndex : string := "gracc.osg.summary".
Definition endpoint : string := "https://gracc.opensciencegrid.org:443/q".

(** [v ?? d] *)
Definition nullish_or (v d : value) : value :=
  match v with
  | VUndefined | VNull => d
  | _ => v
  end.

Section GraccQuery.

Context {P : Platform}.

(** An argument of type [string | Date]. *)
Inductive instant : Type :=
| OfString (s : string)
| OfDate (d : Date).

(** [typeof t === "string" ? t : t.toISOString()] *)
Definition render (t : instant) : completion string :=
  match t with
  | OfString s => Normal s
  | OfDate d =>
      match toISOString d with
      | Some s => Normal s
      | None => Throw RangeError
      end
  end.

(** [offset != null ? `-${offset}s` : null]; an omitted [offset] is [None]. *)
Definition offsetStr (offset : option float) : value :=
  match offset with
  | Some o => VStr ("-" ++ Number_toString o ++ "s")
  | None => VNull
  end.

(** [a + b] *)
Definition plus (a b : value) : completion value :=
  match a, b with
  | VNum x, VNum y => Normal (VNum (x + y))
  | _, _ =>
      match plus_coerce a b with
      | Some v => Normal v
      | None => Throw TypeError
      end
  end.

(** The object literal [query] of lines 36-98. *)
Definition query (startStr endStr interval : string) (offsetStr : value)
    : value :=
  VObj
    [ ("size", VNum 100);
      ("query", VObj
        [ ("bool", VObj
          [ ("filter", VArr
            [ VObj
                [ ("range", VObj
                  [ ("EndTime", VObj
                    [ ("gte", VStr startStr);
                      ("lt", VStr endStr) ]) ]) ];
              VObj
                [ ("term", VObj
                  [ ("ResourceType", VStr "Batch") ]) ];
              VObj
                [ ("bool", VObj
                  [ ("must_not", VArr
                    [ VObj
                        [ ("terms", VObj
                          [ ("SiteName", VArr
                            [ VStr "NONE"; VStr "Generic";
                              VStr "Obsolete" ]) ]) ];
                      VObj
                        [ ("terms", VObj
                          [ ("VOName", VArr
                            [ VStr "Unknown"; VStr "unknown";
                              VStr "other" ]) ]) ] ]) ]) ] ]) ]) ]);
      ("aggs", VObj
        [ ("EndTime", VObj
          [ ("date_histogram", VObj
            [ ("field", VStr "EndTime");
              ("fixed_interval", VStr interval);
              ("offset", nullish_or offsetStr VUndefined);
              ("extended_bounds", VObj
                [ ("min", VStr startStr);
                  ("max", VStr endStr) ]) ]);
            ("aggs", VObj
              [ ("CoreHours", VObj
                [ ("sum", VObj [ ("field", VStr "CoreHours") ]) ]);
                ("Njobs", VObj
                  [ ("sum", VObj [ ("field", VStr "Njobs") ]) ]) ]) ]) ]) ].

(** The two arguments of the [fetch] call of lines 100-104. *)
Definition search_url : string :=
  endpoint ++ "/" ++ summaryIndex ++ "/_search?pretty".

Definition search_init (q : value) : RequestInit :=
  {| method := "POST";
     body := JSON_stringify q (Some 2);
     headers := [ ("Content-Type", "application/json") ] |}.

(** [fs.writeFile(file, data, (err) => { if (err) console.error(msg) })],
    guarded by [file != null]. *)
Definition write_output (file : option string) (data : text) (msg : string)
    : io unit :=
  match file with
  | Some f => emit (WriteFile f data msg)
  | None => ret tt
  end.

(** The callbacks of the three [reduce] calls and of the [map] call. *)
Definition add_hit_CoreHours (acc hit : value) : completion value :=
  s <- get hit "_source" ;;
  c <- get s "CoreHours" ;;
  plus acc c.

Definition add_Njobs (acc bucket : value) : completion value :=
  n <- get bucket "Njobs" ;;
  v <- get n "value" ;;
  plus acc v.

(** [acc + bucket.CoreHours.value || bucket.doc_count]: [+] binds tighter
    than [||], whose right operand is only evaluated when the sum is falsy. *)
Definition add_CoreHours_or_doc_count (acc bucket : value)
    : completion value :=
  c <- get bucket "CoreHours" ;;
  v <- get c "value" ;;
  s <- plus acc v ;;
  if truthy s then ret s else get bucket "doc_count".

Definition dataPoint (bucket : value) : completion value :=
  timestamp <- get bucket "key_as_string" ;;
  n <- get bucket "Njobs" ;;
  nJobs <- get n "value" ;;
  c <- get bucket "CoreHours" ;;
  cpuHours <- get c "value" ;;
  ret (VObj [ ("timestamp", timestamp);
              ("nJobs", nJobs);
              ("cpuHours", cpuHours) ]).

(** Lines 135-148: the object literal [result]. *)
Definition craft_result (body : value) : completion value :=
  a <- get body "aggregations" ;;
  e <- get a "EndTime" ;;
  buckets <- get e "buckets" ;;
  took <- get body "took" ;;
  sumJobs <- Array.reduce buckets add_Njobs (VNum 0) ;;
  sumCpuHours <- Array.reduce buckets add_CoreHours_or_doc_count (VNum 0) ;;
  dataPoints <- Array.map buckets dataPoint ;;
  ret (VObj [ ("took", took);
              ("sumJobs", sumJobs);
              ("sumCpuHours", sumCpuHours);
              ("dataPoints", dataPoints) ]).

(** Lines 126-129: [totalJobs]. *)
Definition total_hits_CoreHours (body : value) : completion value :=
  h <- get body "hits" ;;
  hits <- get h "hits" ;;
  Array.reduce hits add_hit_CoreHours (VNum 0).

(** [await fetch(url, init)]: the request is sent, and the promise resolves
    with the response of the service or rejects. *)
Definition await_fetch (fetch : string -> RequestInit -> completion Response)
    (url : string) (init : RequestInit) : io Response :=
  ([ Fetch url init ], fetch url init).

(** [graccQuery(start, end, interval, offset)]. [fetch] is the network: what
    the promise of a request settles with. The value of the returned
    promise is the [outcome], [null] being [VNull]; a [Throw] is a rejected
    promise. *)
Definition graccQuery (fetch : string -> RequestInit -> completion Response)
    (start end_ : instant) (interval : string) (offset : option float)
    : io value :=
  startStr <- pure (render start) ;;
  endStr <- pure (render end_) ;;
  let q := query startStr endStr interval (offsetStr offset) in
  res <- await_fetch fetch search_url (search_init q) ;;
  if negb (ok res) then
    emit (ConsoleError "GRACC query failed") ;;
    failure <- pure (json res) ;;
    emit (ConsoleLog failure) ;;
    ret VNull
  else
    body <- pure (json res) ;;
    write_output responseBodyOutputFile (JSON_stringify body None)
      "failed to write to response body output file" ;;
    totalJobs <- pure (total_hits_CoreHours body) ;;
    emit (ConsoleLog totalJobs) ;;
    result <- pure (craft_result body) ;;
    write_output dataOutputFile (JSON_stringify result (Some 2))
      "failed to write to data output file" ;;
    ret result.

End GraccQuery.

(** ** The typed view of the response *)

(** Modelled from the spec: the declarations of [./response], from which
    the source imports the type [Root] that it asserts for the body of an OK
    response, are not among the sources. The records below have the fields
    of [Root] that [graccQuery] reads: [took], [hits.hits[]._source.CoreHours]
    and, for each element of [aggregations.EndTime.buckets],
    [key_as_string], [doc_count], [Njobs.value] and [CoreHours.value]. *)
Record Hit : Type :=
  { source_CoreHours : float }.

(** Modelled from the spec: an element of
    [Root.aggregations.EndTime.buckets] in [./response], with the fields
    that [graccQuery] reads. *)
Record Bucket : Type :=
  { key_as_string : string;
    doc_count : float;
    Njobs_value : float;
    CoreHours_value : float }.

(** Modelled from the spec: the type [Root] of [./response], with [took],
    [hits.hits] and [aggregations.EndTime.buckets]. *)
Record Root : Type :=
  { Root_took : float;
    hits_hits : list Hit;
    EndTime_buckets : list Bucket }.

(** A value has the shape of a type when the fields of the type are there
    with values of the right kind; other fields are allowed, as they are in
    TypeScript. *)
Definition field (v : value) (p : string) : option value :=
  match v with
  | VObj props => own props p
  | _ => None
  end.

Definition as_number (v : value) : option float :=
  match v with VNum n => Some n | _ => None end.

Definition as_string (v : value) : option string :=
  match v with VStr s => Some s | _ => None end.

Definition as_array (v : value) : option (list value) :=
  match v with VArr elems => Some elems | _ => None end.

Fixpoint traverse {A B : Type} (f : A -> option B) (l : list A)
    : option (list B) :=
  match l with
  | [] => Some []
  | x :: rest => y <- f x ;; ys <- traverse f rest ;; ret (y :: ys)
  end.

Definition as_Hit (v : value) : option Hit :=
  s <- field v "_source" ;;
  c <- field s "CoreHours" ;;
  n <- as_number c ;;
  ret {| source_CoreHours := n |}.

Definition as_Bucket (v : value) : option Bucket :=
  k <- field v "key_as_string" ;;
  key <- as_string k ;;
  d <- field v "doc_count" ;;
  doc <- as_number d ;;
  n <- field v "Njobs" ;;
  nv <- field n "value" ;;
  jobs <- as_number nv ;;
  c <- field v "CoreHours" ;;
  cv <- field c "value" ;;
  hours <- as_number cv ;;
  ret {| key_as_string := key; doc_count := doc;
         Njobs_value := jobs; CoreHours_value := hours |}.

Definition as_Root (v : value) : option Root :=
  t <- field v "took" ;;
  took <- as_number t ;;
  h <- field v "hits" ;;
  hh <- field h "hits" ;;
  hs <- as_array hh ;;
  hits <- traverse as_Hit hs ;;
  a <- field v "aggregations" ;;
  e <- field a "EndTime" ;;
  b <- field e "buckets" ;;
  bs <- as_array b ;;
  buckets <- traverse as_Bucket bs ;;
  ret {| Root_took := took; hits_hits := hits; EndTime_buckets := buckets |}.

(** ** The typed view of the result *)

Record JobDataPoint : Type :=
  { timestamp : string;
    nJobs : float;
    cpuHours : float }.

Record AnalysisResult : Type :=
  { took : float;
    sumJobs : float;
    sumCpuHours : float;
    dataPoints : list JobDataPoint }.

(** The objects that the literals of lines 136-148 build from typed
    fields. *)
Definition JobDataPoint_object (p : JobDataPoint) : value :=
  VObj [ ("timestamp", VStr (timestamp p));
         ("nJobs", VNum (nJobs p));
         ("cpuHours", VNum (cpuHours p)) ].

Definition AnalysisResult_object (r : AnalysisResult) : value :=
  VObj [ ("took", VNum (took r));
         ("sumJobs", VNum (sumJobs r));
         ("sumCpuHours", VNum (sumCpuHours r));
         ("dataPoints", VArr (List.map JobDataPoint_object (dataPoints r))) ].

(** Lines 135-148 read at the type [Root]: every [+] adds two numbers. *)
Definition cpuHours_step (acc : float) (b : Bucket) : float :=
  let s := (acc + CoreHours_value b)%float in
  if truthy_number s then s else doc_count b.

Definition analyse (r : Root) : AnalysisResult :=
  let buckets := EndTime_buckets r in
  {| took := Root_took r;
     sumJobs :=
       fold_left (fun acc b => (acc + Njobs_value b)%float) buckets 0%float;
     sumCpuHours := fold_left cpuHours_step buckets 0%float;
     dataPoints :=
       List.map (fun b => {| timestamp := key_as_string b;
                             nJobs := Njobs_value b;
                             cpuHours := CoreHours_value b |}) buckets |}.

Definition total_CoreHours (hits : list Hit) : float :=
  fold_left (fun acc h => (acc + source_CoreHours h)%float) hits 0%float.

(** The sum of a field over the buckets: the terms are added from left to
    right, starting from 0. *)
Definition sum_of (terms : list float) : float :=
  fold_left PrimFloat.add terms 0%float.

(** The running total of [sumCpuHours] at the type [Root] leaves the sum of
    the CPU hours alone when, at every bucket, the total with the bucket's
    CPU hours added is truthy, so that [|| bucket.doc_count] is not taken,
    or the [doc_count] that replaces it is that very total. *)
Fixpoint fallback_keeps_total (acc : float) (buckets : list Bucket) : Prop :=
  match buckets with
  | [] => True
  | b :: rest =>
      let s := (acc + CoreHours_value b)%float in
      (truthy_number s = true \/ doc_count b = s) /\
      fallback_keeps_total s rest
  end.

(** ** Sums of values of any kind *)

Section Sums.

Context {P : Platform}.

(** The sum of the terms as [+] computes it, from left to right. *)
Fixpoint sum_values (acc : value) (terms : list value) : completion value :=
  match terms with
  | [] => Normal acc
  | x :: rest => s <- plus acc x ;; sum_values s rest
  end.

(** The running total of terms [(v, d)] in which a total that is falsy
    once [v] is added is replaced by [d]. *)
Fixpoint total_or_count (acc : value) (terms : list (value * value))
    : completion value :=
  match terms with
  | [] => Normal acc
  | (v, d) :: rest =>
      s <- plus acc v ;; total_or_count (if truthy s then s else d) rest
  end.

(** No replacement changes the total. *)
Fixpoint fallback_keeps_value (acc : value) (terms : list (value * value))
    : Prop :=
  match terms with
  | [] => True
  | (v, d) :: rest =>
      forall s, plus acc v = Normal s ->
        (truthy s = true \/ d = s) /\ fallback_keeps_value s rest
  end.

End Sums.

(** ** A platform to run examples on *)

Module Example.

(** The integer part of a finite double. *)
Definition integer_part (n : float) : Z :=
  match Prim2SF n with
  | S754_finite s m e =>
      let z := if (0 <=? e)%Z then (Z.pos m * 2 ^ e)%Z
               else (Z.pos m / 2 ^ (- e))%Z in
      if s then (- z)%Z else z
  | _ => 0%Z
  end.

(** A valid date is given by its ISO text; [None] is the invalid date.
    Numbers are printed in decimal, which is what JavaScript does for the
    integral numbers of the examples. The examples add numbers only; [+] on
    anything else is left out and throws. *)
Definition platform : Platform :=
  {| Date := option string;
     toISOString := fun d => d;
     Number_toString := fun n =>
       NilZero.string_of_int (Z.to_int (integer_part n));
     plus_coerce := fun _ _ => None |}.

Definition bucket (key : string) (docs jobs hours : float) : value :=
  VObj [ ("key_as_string", VStr key);
         ("key", VNum 0);
         ("doc_count", VNum docs);
         ("CoreHours", VObj [ ("value", VNum hours) ]);
         ("Njobs", VObj [ ("value", VNum jobs) ]) ].

Definition hit (hours : float) : value :=
  VObj [ ("_id", VStr "x");
         ("_source", VObj [ ("CoreHours", VNum hours) ]) ].

(** A hit that was returned without its document. *)
Definition hit_without_source : value :=
  VObj [ ("_id", VStr "x") ].

Definition response_body (took : float) (hits buckets : list value)
    : value :=
  VObj [ ("took", VNum took);
         ("timed_out", VBool false);
         ("hits", VObj [ ("hits", VArr hits) ]);
         ("aggregations", VObj
           [ ("EndTime", VObj [ ("buckets", VArr buckets) ]) ]) ].

(** An OK response with a JSON body, and a service that answers every
    request with the same response. *)
Definition ok_response (body : value) : Response :=
  {| ok := true; json := Normal body |}.

Definition answers (res : Response) (url : string) (init : RequestInit)
    : completion Response :=
  Normal res.

(** A 502 of a proxy: the status is not OK and the body is an HTML page,
    so that [res.json()] rejects. *)
Definition bad_gateway : Response :=
  {| ok := false; json := Throw SyntaxError |}.

Definition two_buckets : value :=
  response_body 7 [ hit 1.5; hit 2 ]
    [ bucket "2023-01-10T19:00:00.000Z" 3 10 2.5;
      bucket "2023-01-10T20:00:00.000Z" 4 20 4 ].

Definition day_start : @instant platform :=
  OfString "2023-01-10T19:22:28.000Z".

Definition day_end : @instant platform :=
  OfString "2023-01-11T19:22:28.000Z".

(** [new Date("2023-01-11T19:22:28Z")] and [new Date("yesterday")]. *)
Definition day_end_date : @instant platform :=
  @OfDate platform (Some "2023-01-11T19:22:28.000Z").

Definition invalid_date : @instant platform :=
  @OfDate platform None.

(** One bucket without CPU hours. *)
Definition idle_bucket : value :=
  response_body 7 [] [ bucket "2023-01-10T19:00:00.000Z" 5 1 0 ].

(** An hour without any record, followed by an hour with two. *)
Definition empty_hour_first : value :=
  response_body 7 []
    [ bucket "2023-01-10T19:00:00.000Z" 0 0 0;
      bucket "2023-01-10T20:00:00.000Z" 2 3 4 ].

End Example.

(** ** Reading a trace and a query *)

(** The HTTP requests, the file writes and the error messages of a trace. *)
Definition requests (t : list event) : list (string * RequestInit) :=
  flat_map (fun e => match e with Fetch u i => [(u, i)] | _ => [] end) t.

Definition writes (t : list event) : list (string * text) :=
  flat_map (fun e => match e with WriteFile f d _ => [(f, d)] | _ => [] end) t.

Definition errors (t : list event) : list string :=
  flat_map (fun e => match e with ConsoleError m => [m] | _ => [] end) t.

(** The messages that the callbacks of the writes of a trace send to
    [console.error] once the writes have settled, [failed] telling the
    files that could not be written. *)
Definition callback_errors (failed : string -> bool) (t : list event)
    : list string :=
  flat_map (fun e => match e with
                     | WriteFile f _ m => if failed f then [m] else []
                     | _ => []
                     end) t.

(** The value that a request carries as its body. *)
Definition posted (init : RequestInit) : value :=
  match body init with JSON_stringify q _ => q end.

(** [v.a.b[0].c]: a path of property names and array indices. *)
Inductive step : Type :=
| Key (p : string)
| Index (i : nat).

Fixpoint path (v : value) (steps : list step) : option value :=
  match steps with
  | [] => Some v
  | Key p :: rest =>
      match field v p with
      | Some x => path x rest
      | None => None
      end
  | Index i :: rest =>
      match v with
      | VArr elems =>
          match nth_error elems i with
          | Some x => path x rest
          | None => None
          end
      | _ => None
      end
  end.

(** [body.aggregations.EndTime.buckets], when it is there and an array. *)
Definition body_buckets (body : value) : option (list value) :=
  b <- path body [ Key "aggregations"; Key "EndTime"; Key "buckets" ] ;;
  as_array b.

(** [body.hits.hits], when it is there and an array. *)
Definition body_hits (body : value) : option (list value) :=
  h <- path body [ Key "hits"; Key "hits" ] ;;
  as_array h.

(** [v.p.q], read as the source does. *)
Definition get2 (v : value) (p q : string) : completion value :=
  x <- get v p ;; get x q.

Section Exchange.

Context {P : Platform}.

(** The request that [graccQuery] sends for given arguments: there is one
    once [start] and [end] have been rendered. *)
Definition request (start end_ : instant) (interval : string)
    (offset : option float) : option RequestInit :=
  match render start, render end_ with
  | Normal startStr, Normal endStr =>
      Some (search_init (query startStr endStr interval (offsetStr offset)))
  | _, _ => None
  end.

End Exchange.

(** * Properties *)

(** ** Reading a value of a known shape *)

Lemma bind_Some (A B : Type) (c : option A) (k : A -> option B) (y : B) :
  bind c k = Some y -> exists a, c = Some a /\ k a = Some y.
Proof.
  destruct c as [a|]; simpl; intros H.
  - exists a. split; [reflexivity | exact H].
  - discriminate H.
Qed.

(** Splits a successful chain of option binds into its steps. *)
Ltac unbind H :=
  repeat
    (let a := fresh "x" in
     let E := fresh "E" in
     apply bind_Some in H; destruct H as (a & E & H)).

Lemma field_get (v x : value) (p : string) :
  field v p = Some x -> get v p = Normal x.
Proof.
  destruct v; simpl; try discriminate.
  intros ->. reflexivity.
Qed.

Lemma as_number_VNum (v : value) (n : float) :
  as_number v = Some n -> v = VNum n.
Proof. destruct v; simpl; congruence. Qed.

Lemma as_string_VStr (v : value) (s : string) :
  as_string v = Some s -> v = VStr s.
Proof. destruct v; simpl; congruence. Qed.

Lemma as_array_VArr (v : value) (l : list value) :
  as_array v = Some l -> v = VArr l.
Proof. destruct v; simpl; congruence. Qed.

Lemma traverse_length (A B : Type) (f : A -> option B) (l : list A) :
  forall l', traverse f l = Some l' -> List.length l' = List.length l.
Proof.
  induction l as [|x l IH]; simpl; intros l' H.
  - injection H as <-. reflexivity.
  - unbind H. injection H as <-. simpl. f_equal. apply IH. assumption.
Qed.

Lemma traverse_nth_error (A B : Type) (f : A -> option B) (l : list A) :
  forall l' i x, traverse f l = Some l' -> nth_error l i = Some x ->
  exists y, f x = Some y /\ nth_error l' i = Some y.
Proof.
  induction l as [|a l IH]; simpl; intros l' i x H Hx.
  - destruct i; discriminate Hx.
  - unbind H. injection H as <-. destruct i as [|i]; simpl in *.
    + injection Hx as <-. exists x0. split; [assumption | reflexivity].
    + eapply IH; eassumption.
Qed.

Section Typed.

Context {P : Platform}.

Lemma as_Hit_get (v : value) (h : Hit) :
  as_Hit v = Some h ->
  exists s, get v "_source" = Normal s /\
            get s "CoreHours" = Normal (VNum (source_CoreHours h)).
Proof.
  unfold as_Hit. intros H. unbind H. injection H as <-. simpl.
  apply as_number_VNum in E1. subst.
  eexists. split; apply field_get; eassumption.
Qed.

Lemma as_Bucket_get (v : value) (b : Bucket) :
  as_Bucket v = Some b ->
  get v "key_as_string" = Normal (VStr (key_as_string b)) /\
  get v "doc_count" = Normal (VNum (doc_count b)) /\
  (exists n, get v "Njobs" = Normal n /\
             get n "value" = Normal (VNum (Njobs_value b))) /\
  (exists c, get v "CoreHours" = Normal c /\
             get c "value" = Normal (VNum (CoreHours_value b))).
Proof.
  unfold as_Bucket. intros H. unbind H. injection H as <-. simpl.
  apply as_string_VStr in E0. apply as_number_VNum in E2, E5, E8. subst.
  repeat split; try (eexists; split); apply field_get; eassumption.
Qed.

Lemma add_hit_CoreHours_typed (acc : float) (v : value) (h : Hit) :
  as_Hit v = Some h ->
  add_hit_CoreHours (VNum acc) v = Normal (VNum (acc + source_CoreHours h)).
Proof.
  intros H. apply as_Hit_get in H as (s & Hs & Hc).
  unfold add_hit_CoreHours. rewrite Hs. simpl. rewrite Hc. reflexivity.
Qed.

Lemma add_Njobs_typed (acc : float) (v : value) (b : Bucket) :
  as_Bucket v = Some b ->
  add_Njobs (VNum acc) v = Normal (VNum (acc + Njobs_value b)).
Proof.
  intros H. apply as_Bucket_get in H as (_ & _ & (n & Hn & Hv) & _).
  unfold add_Njobs. rewrite Hn. simpl. rewrite Hv. reflexivity.
Qed.

Lemma add_CoreHours_or_doc_count_typed (acc : float) (v : value)
    (b : Bucket) :
  as_Bucket v = Some b ->
  add_CoreHours_or_doc_count (VNum acc) v = Normal (VNum (cpuHours_step acc b)).
Proof.
  intros H. apply as_Bucket_get in H as (_ & Hd & _ & (c & Hc & Hv)).
  unfold add_CoreHours_or_doc_count, cpuHours_step.
  rewrite Hc. simpl. rewrite Hv. simpl.
  destruct (truthy_number (acc + CoreHours_value b)); [reflexivity | exact Hd].
Qed.

Lemma dataPoint_typed (v : value) (b : Bucket) :
  as_Bucket v = Some b ->
  dataPoint v =
  Normal (JobDataPoint_object {| timestamp := key_as_string b;
                                 nJobs := Njobs_value b;
                                 cpuHours := CoreHours_value b |}).
Proof.
  intros H.
  apply as_Bucket_get in H as (Hk & _ & (n & Hn & Hnv) & (c & Hc & Hcv)).
  unfold dataPoint. rewrite Hk. simpl. rewrite Hn. simpl. rewrite Hnv. simpl.
  rewrite Hc. simpl. rewrite Hcv. reflexivity.
Qed.

(** A [reduce] whose callback adds numbers is a left fold over the typed
    elements. *)
Lemma reduce_from_typed (A : Type) (view : value -> option A)
    (cb : value -> value -> completion value) (step : float -> A -> float) :
  (forall acc v a, view v = Some a ->
     cb (VNum acc) v = Normal (VNum (step acc a))) ->
  forall vs l acc, traverse view vs = Some l ->
  Array.reduce_from cb vs (VNum acc) = Normal (VNum (fold_left step l acc)).
Proof.
  intros Hcb. induction vs as [|v vs IH]; simpl; intros l acc H.
  - injection H as <-. reflexivity.
  - unbind H. injection H as <-. rewrite (Hcb acc v x E). simpl.
    apply IH. assumption.
Qed.

Lemma map_elems_typed (A : Type) (view : value -> option A)
    (cb : value -> completion value) (f : A -> value) :
  (forall v a, view v = Some a -> cb v = Normal (f a)) ->
  forall vs l, traverse view vs = Some l ->
  Array.map_elems cb vs = Normal (List.map f l).
Proof.
  intros Hcb. induction vs as [|v vs IH]; simpl; intros l H.
  - injection H as <-. reflexivity.
  - unbind H. injection H as <-. rewrite (Hcb v x E). simpl.
    rewrite (IH x0 E0). reflexivity.
Qed.

End Typed.

(** ** What the callbacks can throw *)

Lemma bind_Normal (A B : Type) (c : completion A) (k : A -> completion B)
    (y : B) :
  bind c k = Normal y -> exists a, c = Normal a /\ k a = Normal y.
Proof.
  destruct c as [a|e]; simpl; intros H.
  - exists a. split; [reflexivity | exact H].
  - discriminate H.
Qed.

Lemma bind_Throw (A B : Type) (c : completion A) (k : A -> completion B)
    (e : exn) :
  bind c k = Throw e ->
  c = Throw e \/ exists a, c = Normal a /\ k a = Throw e.
Proof.
  destruct c as [a|e']; simpl; intros H.
  - right. exists a. split; [reflexivity | exact H].
  - left. injection H as ->. reflexivity.
Qed.

Lemma get_throws (v : value) (p : string) (e : exn) :
  get v p = Throw e -> e = TypeError.
Proof.
  destruct v; simpl; try discriminate; intros H; injection H as <-;
    reflexivity.
Qed.

(** Once a property of a value has been read, any other can be. *)
Lemma get_again (v x : value) (p q : string) :
  get v p = Normal x -> exists y, get v q = Normal y.
Proof.
  destruct v; simpl; try discriminate; intros _; eexists; reflexivity.
Qed.

Section Throws.

Context {P : Platform}.

Lemma render_throws (t : instant) (e : exn) :
  render t = Throw e -> e = RangeError.
Proof.
  destruct t as [s|d]; simpl; [discriminate |].
  destruct (toISOString d); [discriminate |].
  intros H. injection H as <-. reflexivity.
Qed.

Lemma plus_throws (a b : value) (e : exn) :
  plus a b = Throw e -> e = TypeError.
Proof.
  unfold plus.
  destruct a, b; try discriminate;
    (destruct (plus_coerce _ _); [discriminate |];
     intros H; injection H as <-; reflexivity).
Qed.

Lemma add_hit_CoreHours_throws (acc hit : value) (e : exn) :
  add_hit_CoreHours acc hit = Throw e -> e = TypeError.
Proof.
  unfold add_hit_CoreHours. intros H.
  apply bind_Throw in H as [H | (s & _ & H)];
    [exact (get_throws _ _ H) |].
  apply bind_Throw in H as [H | (c & _ & H)];
    [exact (get_throws _ _ H) |].
  exact (plus_throws _ _ H).
Qed.

Lemma add_hit_CoreHours_no_source (acc hit : value) :
  field hit "_source" = None -> add_hit_CoreHours acc hit = Throw TypeError.
Proof.
  unfold add_hit_CoreHours.
  destruct hit; simpl; try reflexivity. intros ->. reflexivity.
Qed.

Lemma reduce_from_throws (cb : value -> value -> completion value) :
  (forall acc x e, cb acc x = Throw e -> e = TypeError) ->
  forall l acc e, Array.reduce_from cb l acc = Throw e -> e = TypeError.
Proof.
  intros Hcb. induction l as [|x l IH]; simpl; intros acc e H.
  - discriminate H.
  - apply bind_Throw in H as [H | (acc' & _ & H)].
    + exact (Hcb _ _ _ H).
    + exact (IH _ _ H).
Qed.

Lemma total_hits_CoreHours_throws (body : value) (e : exn) :
  total_hits_CoreHours body = Throw e -> e = TypeError.
Proof.
  unfold total_hits_CoreHours. intros H.
  apply bind_Throw in H as [H | (h & _ & H)];
    [exact (get_throws _ _ H) |].
  apply bind_Throw in H as [H | (hits & _ & H)];
    [exact (get_throws _ _ H) |].
  destruct hits; simpl in H;
    try (injection H as <-; reflexivity).
  eapply reduce_from_throws; [| exact H].
  intros acc x e'. apply add_hit_CoreHours_throws.
Qed.

(** One hit without [_source] stops the fold over the hits. *)
Lemma reduce_from_no_source (hs : list value) :
  Exists (fun h => field h "_source" = None) hs ->
  forall acc,
  Array.reduce_from add_hit_CoreHours hs acc = Throw TypeError.
Proof.
  induction hs as [|h hs IH]; intros HE acc; inversion HE; subst; simpl.
  - rewrite add_hit_CoreHours_no_source by assumption. reflexivity.
  - destruct (add_hit_CoreHours acc h) as [acc'|e] eqn:Hh; simpl.
    + apply IH. assumption.
    + apply add_hit_CoreHours_throws in Hh. subst. reflexivity.
Qed.

End Throws.

(** ** The runs of [graccQuery] *)

Section Run.

Context {P : Platform}.

Variable fetch : string -> RequestInit -> completion Response.
Variables start end_ : instant.
Variable interval : string.
Variable offset : option float.

Lemma request_rendered (init : RequestInit) :
  request start end_ interval offset = Some init ->
  exists startStr endStr,
    render start = Normal startStr /\
    render end_ = Normal endStr /\
    init = search_init (query startStr endStr interval (offsetStr offset)).
Proof.
  unfold request.
  destruct (render start) as [s|]; [| discriminate].
  destruct (render end_) as [e|]; [| discriminate].
  intros H. injection H as <-. exists s, e. repeat split.
Qed.

(** An invalid Date ends the call before anything is sent. *)
Lemma graccQuery_unrendered :
  request start end_ interval offset = None ->
  graccQuery fetch start end_ interval offset = ([], Throw RangeError).
Proof.
  unfold request, graccQuery.
  destruct (render start) as [s|e] eqn:Hs.
  - destruct (render end_) as [e'|e'] eqn:He; [discriminate |].
    intros _. apply render_throws in He. subst. reflexivity.
  - intros _. apply render_throws in Hs. subst. reflexivity.
Qed.

Variable init : RequestInit.
Hypothesis Hinit : request start end_ interval offset = Some init.

(** A request that is not answered. *)
Lemma graccQuery_unanswered (e : exn) :
  fetch search_url init = Throw e ->
  graccQuery fetch start end_ interval offset =
  ([ Fetch search_url init ], Throw e).
Proof.
  intros Hres.
  destruct (request_rendered Hinit) as (s & e' & Hs & He & ->).
  unfold graccQuery, await_fetch. rewrite Hs, He. simpl.
  rewrite Hres. reflexivity.
Qed.

Variable res : Response.
Hypothesis Hres : fetch search_url init = Normal res.

Lemma graccQuery_failed :
  ok res = false ->
  graccQuery fetch start end_ interval offset =
  match json res with
  | Normal failure =>
      ([ Fetch search_url init; ConsoleError "GRACC query failed";
         ConsoleLog failure ],
       Normal VNull)
  | Throw e =>
      ([ Fetch search_url init; ConsoleError "GRACC query failed" ], Throw e)
  end.
Proof.
  intros Hok.
  destruct (request_rendered Hinit) as (s & e' & Hs & He & Hq).
  rewrite Hq in Hres.
  unfold graccQuery, await_fetch. rewrite Hs, He. simpl.
  rewrite Hres. simpl. rewrite Hok. simpl. rewrite Hq.
  destruct (json res); reflexivity.
Qed.

Lemma graccQuery_succeeded :
  ok res = true ->
  graccQuery fetch start end_ interval offset =
  match json res with
  | Throw e => ([ Fetch search_url init ], Throw e)
  | Normal body =>
      let raw := WriteFile "responseOut.json" (JSON_stringify body None)
                   "failed to write to response body output file" in
      match total_hits_CoreHours body with
      | Throw e => ([ Fetch search_url init; raw ], Throw e)
      | Normal totalJobs =>
          match craft_result body with
          | Throw e =>
              ([ Fetch search_url init; raw; ConsoleLog totalJobs ], Throw e)
          | Normal result =>
              ([ Fetch search_url init; raw; ConsoleLog totalJobs;
                 WriteFile "dataOut.json" (JSON_stringify result (Some 2))
                   "failed to write to data output file" ],
               Normal result)
          end
      end
  end.
Proof.
  intros Hok.
  destruct (request_rendered Hinit) as (s & e' & Hs & He & Hq).
  rewrite Hq in Hres.
  unfold graccQuery, await_fetch. rewrite Hs, He. simpl.
  rewrite Hres. simpl. rewrite Hok. simpl. rewrite Hq.
  destruct (json res) as [body|e]; simpl; [| reflexivity].
  destruct (total_hits_CoreHours body) as [totalJobs|e]; simpl;
    [| reflexivity].
  destruct (craft_result body) as [result|e]; reflexivity.
Qed.

End Run.

(** Whatever the service does, the trace holds the one request, if there is
    one to send. *)
Lemma graccQuery_requests {P : Platform}
    (fetch : string -> RequestInit -> completion Response)
    (start end_ : instant) (interval : string) (offset : option float) :
  requests (trace (graccQuery fetch start end_ interval offset)) =
  match request start end_ interval offset with
  | Some init => [ (search_url, init) ]
  | None => []
  end.
Proof.
  destruct (request start end_ interval offset) as [init|] eqn:Hinit.
  - destruct (fetch search_url init) as [res|e] eqn:Hres.
    + destruct (ok res) eqn:Hok.
      * rewrite (graccQuery_succeeded _ _ _ _ _ Hinit Hres Hok).
        destruct (json res) as [body|]; [| reflexivity]. simpl.
        destruct (total_hits_CoreHours body); [| reflexivity].
        destruct (craft_result body); reflexivity.
      * rewrite (graccQuery_failed _ _ _ _ _ Hinit Hres Hok).
        destruct (json res); reflexivity.
    + rewrite (graccQuery_unanswered _ _ _ _ _ Hinit Hres). reflexivity.
  - rewrite (graccQuery_unrendered fetch _ _ _ _ Hinit). reflexivity.
Qed.

(** ** The success path on a body of type [Root] *)

Section Shape.

Context {P : Platform}.

Lemma total_hits_CoreHours_typed (body : value) (r : Root) :
  as_Root body = Some r ->
  total_hits_CoreHours body = Normal (VNum (total_CoreHours (hits_hits r))).
Proof.
  unfold as_Root. intros H. unbind H. injection H as <-. simpl.
  apply as_array_VArr in E3. subst.
  unfold total_hits_CoreHours.
  rewrite (field_get _ _ E1). simpl. rewrite (field_get _ _ E2). simpl.
  apply reduce_from_typed with (view := as_Hit); [| assumption].
  intros acc v h. apply add_hit_CoreHours_typed.
Qed.

Lemma craft_result_typed (body : value) (r : Root) :
  as_Root body = Some r ->
  craft_result body = Normal (AnalysisResult_object (analyse r)).
Proof.
  unfold as_Root. intros H. unbind H. injection H as <-.
  apply as_number_VNum in E0. apply as_array_VArr in E8. subst.
  unfold craft_result.
  rewrite (field_get _ _ E5). simpl. rewrite (field_get _ _ E6). simpl.
  rewrite (field_get _ _ E7). simpl. rewrite (field_get _ _ E). simpl.
  rewrite (reduce_from_typed as_Bucket add_Njobs
             (fun acc b => (acc + Njobs_value b)%float)
             add_Njobs_typed _ 0%float E9).
  simpl.
  rewrite (reduce_from_typed as_Bucket add_CoreHours_or_doc_count
             cpuHours_step add_CoreHours_or_doc_count_typed _ 0%float E9).
  simpl.
  rewrite (map_elems_typed as_Bucket dataPoint _ dataPoint_typed _ E9).
  unfold AnalysisResult_object, analyse. simpl.
  rewrite List.map_map. reflexivity.
Qed.

(** Whatever the body, a result that is returned is the object literal. *)
Lemma craft_result_object (body result : value) :
  craft_result body = Normal result -> exists props, result = VObj props.
Proof.
  unfold craft_result. simpl. intros H.
  repeat
    match type of H with
    | match ?c with Normal _ => _ | Throw _ => _ end = _ =>
        destruct c; [| discriminate H]
    end.
  injection H as <-. eexists. reflexivity.
Qed.

(** The whole run on an OK response whose body has the shape [Root]. *)
Lemma graccQuery_typed
    (fetch : string -> RequestInit -> completion Response)
    (start end_ : instant) (interval : string) (offset : option float)
    (init : RequestInit) (res : Response) (body : value) (r : Root) :
  request start end_ interval offset = Some init ->
  fetch search_url init = Normal res ->
  ok res = true ->
  json res = Normal body ->
  as_Root body = Some r ->
  graccQuery fetch start end_ interval offset =
  ([ Fetch search_url init;
     WriteFile "responseOut.json" (JSON_stringify body None)
       "failed to write to response body output file";
     ConsoleLog (VNum (total_CoreHours (hits_hits r)));
     WriteFile "dataOut.json"
       (JSON_stringify (AnalysisResult_object (analyse r)) (Some 2))
       "failed to write to data output file" ],
   Normal (AnalysisResult_object (analyse r))).
Proof.
  intros Hinit Hres Hok Hbody Hr.
  rewrite (graccQuery_succeeded _ _ _ _ _ Hinit Hres Hok). rewrite Hbody.
  simpl. rewrite (total_hits_CoreHours_typed _ Hr).
  rewrite (craft_result_typed _ Hr). reflexivity.
Qed.

End Shape.

(** ** The success path on a body of another shape *)

Section Unchecked.

Context {P : Platform}.

Lemma total_hits_CoreHours_missing (body : value) :
  body_hits body = None -> total_hits_CoreHours body = Throw TypeError.
Proof.
  unfold body_hits, total_hits_CoreHours. simpl.
  destruct body as [| | | | | |props]; simpl; try reflexivity.
  destruct (own props "hits") as [h|]; simpl; [| reflexivity].
  destruct h as [| | | | | |props']; simpl; try reflexivity.
  destruct (own props' "hits") as [hh|]; simpl; [| reflexivity].
  destruct hh; simpl; try reflexivity. discriminate.
Qed.

Lemma craft_result_missing (body : value) :
  body_buckets body = None -> craft_result body = Throw TypeError.
Proof.
  unfold body_buckets, craft_result. simpl.
  destruct body as [| | | | | |props]; simpl; try reflexivity.
  destruct (own props "aggregations") as [a|]; simpl; [| reflexivity].
  destruct a as [| | | | | |props']; simpl; try reflexivity.
  destruct (own props' "EndTime") as [e|]; simpl; [| reflexivity].
  destruct e as [| | | | | |props'']; simpl; try reflexivity.
  destruct (own props'' "buckets") as [b|]; simpl; [| reflexivity].
  destruct b; simpl; try reflexivity. discriminate.
Qed.

Lemma craft_result_took (body result : value) :
  craft_result body = Normal result ->
  field body "took" = None ->
  field result "took" = Some VUndefined.
Proof.
  unfold craft_result. simpl. intros H Htook.
  repeat
    match type of H with
    | match ?c with Normal _ => _ | Throw _ => _ end = _ =>
        destruct c eqn:?; [| discriminate H]
    end.
  injection H as <-. simpl.
  destruct body; simpl in *; try congruence.
  rewrite Htook in *. congruence.
Qed.

(** With an array at [aggregations.EndTime.buckets], the result depends
    on the body through that array and [took] only. *)
Lemma craft_result_reads (body : value) (raw : list value) :
  body_buckets body = Some raw ->
  craft_result body =
  (sumJobs <- Array.reduce_from add_Njobs raw (VNum 0) ;;
   sumCpuHours <- Array.reduce_from add_CoreHours_or_doc_count raw (VNum 0) ;;
   dataPoints <- Array.map_elems dataPoint raw ;;
   ret (VObj [ ("took", match field body "took" with
                        | Some t => t
                        | None => VUndefined
                        end);
               ("sumJobs", sumJobs);
               ("sumCpuHours", sumCpuHours);
               ("dataPoints", VArr dataPoints) ])).
Proof.
  unfold body_buckets, craft_result. simpl.
  destruct body as [| | | | | |props]; simpl; try discriminate.
  destruct (own props "aggregations") as [a|]; simpl; [| discriminate].
  destruct a as [| | | | | |props']; simpl; try discriminate.
  destruct (own props' "EndTime") as [e|]; simpl; [| discriminate].
  destruct e as [| | | | | |props'']; simpl; try discriminate.
  destruct (own props'' "buckets") as [b|]; simpl; [| discriminate].
  destruct b; simpl; try discriminate.
  intros H. injection H as ->.
  destruct (Array.reduce_from add_Njobs raw (VNum 0)); [| reflexivity].
  destruct (Array.reduce_from add_CoreHours_or_doc_count raw (VNum 0));
    [| reflexivity].
  destruct (Array.map_elems dataPoint raw); reflexivity.
Qed.

Lemma craft_result_agree (body1 body2 : value) :
  field body1 "took" = field body2 "took" ->
  path body1 [ Key "aggregations"; Key "EndTime"; Key "buckets" ] =
  path body2 [ Key "aggregations"; Key "EndTime"; Key "buckets" ] ->
  craft_result body1 = craft_result body2.
Proof.
  intros Htook Hbuckets.
  assert (Hsame : body_buckets body1 = body_buckets body2).
  { unfold body_buckets. rewrite Hbuckets. reflexivity. }
  destruct (body_buckets body1) as [raw|] eqn:H1.
  - rewrite (craft_result_reads _ H1).
    rewrite (craft_result_reads _ (eq_sym Hsame)).
    rewrite Htook. reflexivity.
  - rewrite (craft_result_missing _ H1).
    rewrite (craft_result_missing _ (eq_sym Hsame)). reflexivity.
Qed.

(** With an array at [hits.hits], [totalJobs] is the fold over it. *)
Lemma total_hits_CoreHours_reads (body : value) (hs : list value) :
  body_hits body = Some hs ->
  total_hits_CoreHours body =
  Array.reduce_from add_hit_CoreHours hs (VNum 0).
Proof.
  unfold body_hits, total_hits_CoreHours. simpl.
  destruct body as [| | | | | |props]; simpl; try discriminate.
  destruct (own props "hits") as [h|]; simpl; [| discriminate].
  destruct h as [| | | | | |props']; simpl; try discriminate.
  destruct (own props' "hits") as [hh|]; simpl; [| discriminate].
  destruct hh; simpl; try discriminate.
  intros H. injection H as ->. reflexivity.
Qed.

(** A call that returns on an OK response has parsed the body, computed
    [totalJobs], built the result and started both writes. *)
Lemma graccQuery_returns
    (fetch : string -> RequestInit -> completion Response)
    (start end_ : instant) (interval : string) (offset : option float)
    (init : RequestInit) (res : Response) (result : value) :
  request start end_ interval offset = Some init ->
  fetch search_url init = Normal res ->
  ok res = true ->
  outcome (graccQuery fetch start end_ interval offset) = Normal result ->
  exists body totalJobs,
    json res = Normal body /\
    total_hits_CoreHours body = Normal totalJobs /\
    craft_result body = Normal result /\
    trace (graccQuery fetch start end_ interval offset) =
      [ Fetch search_url init;
        WriteFile "responseOut.json" (JSON_stringify body None)
          "failed to write to response body output file";
        ConsoleLog totalJobs;
        WriteFile "dataOut.json" (JSON_stringify result (Some 2))
          "failed to write to data output file" ].
Proof.
  intros Hinit Hres Hok.
  rewrite (graccQuery_succeeded _ _ _ _ _ Hinit Hres Hok).
  destruct (json res) as [body|]; [| discriminate]. simpl.
  destruct (total_hits_CoreHours body) as [totalJobs|] eqn:Htotal;
    [| discriminate].
  destruct (craft_result body) as [result'|] eqn:Hcraft; [| discriminate].
  simpl. intros H. injection H as <-.
  exists body, totalJobs. repeat split; assumption.
Qed.

(** On an OK response the call does not return [null] and sends nothing to
    [console.error]. *)
Lemma graccQuery_succeeded_quietly
    (fetch : string -> RequestInit -> completion Response)
    (start end_ : instant) (interval : string) (offset : option float)
    (init : RequestInit) (res : Response) :
  request start end_ interval offset = Some init ->
  fetch search_url init = Normal res ->
  ok res = true ->
  outcome (graccQuery fetch start end_ interval offset) <> Normal VNull /\
  errors (trace (graccQuery fetch start end_ interval offset)) = [].
Proof.
  intros Hinit Hres Hok.
  rewrite (graccQuery_succeeded _ _ _ _ _ Hinit Hres Hok).
  destruct (json res) as [body|]; [| split; [discriminate | reflexivity]].
  simpl.
  destruct (total_hits_CoreHours body);
    [| split; [discriminate | reflexivity]].
  destruct (craft_result body) as [result|] eqn:Hcraft;
    [| split; [discriminate | reflexivity]].
  apply craft_result_object in Hcraft as (props & ->).
  split; [discriminate | reflexivity].
Qed.

Lemma map_elems_nth_error (cb : value -> completion value) (l : list value) :
  forall l', Array.map_elems cb l = Normal l' ->
  List.length l' = List.length l /\
  forall i x, nth_error l i = Some x ->
    exists y, cb x = Normal y /\ nth_error l' i = Some y.
Proof.
  induction l as [|a l IH]; simpl; intros l' H.
  - injection H as <-. split; [reflexivity |].
    intros [|i] x Hx; discriminate Hx.
  - apply bind_Normal in H as (y & Hy & H).
    apply bind_Normal in H as (ys & Hys & H).
    injection H as <-. destruct (IH _ Hys) as (Hlen & Hnth).
    split; [simpl; f_equal; exact Hlen |].
    intros [|i] x Hx; simpl in Hx.
    + injection Hx as <-. exists y. split; [exact Hy | reflexivity].
    + apply Hnth. exact Hx.
Qed.

Lemma dataPoint_reads (bucket point : value) :
  dataPoint bucket = Normal point ->
  exists timestamp nJobs cpuHours,
    get bucket "key_as_string" = Normal timestamp /\
    get2 bucket "Njobs" "value" = Normal nJobs /\
    get2 bucket "CoreHours" "value" = Normal cpuHours /\
    point = VObj [ ("timestamp", timestamp);
                   ("nJobs", nJobs);
                   ("cpuHours", cpuHours) ].
Proof.
  unfold dataPoint, get2. intros H.
  apply bind_Normal in H as (timestamp & Ht & H).
  apply bind_Normal in H as (n & Hn & H).
  apply bind_Normal in H as (nJobs & Hnv & H).
  apply bind_Normal in H as (c & Hc & H).
  apply bind_Normal in H as (cpuHours & Hcv & H).
  injection H as <-. exists timestamp, nJobs, cpuHours.
  rewrite Ht, Hn, Hc. simpl. rewrite Hnv, Hcv. repeat split.
Qed.

End Unchecked.

(** ** Sums *)

Lemma fold_left_sum (A : Type) (f : A -> float) (l : list A) :
  forall acc,
  fold_left (fun a x => (a + f x)%float) l acc =
  fold_left PrimFloat.add (List.map f l) acc.
Proof.
  induction l as [|x l IH]; simpl; intros acc; [reflexivity | apply IH].
Qed.

(** While no replacement by [doc_count] changes the running total, the fold
    adds the CPU hours. *)
Lemma fold_left_cpuHours_step (l : list Bucket) :
  forall acc,
  fallback_keeps_total acc l ->
  fold_left cpuHours_step l acc =
  fold_left PrimFloat.add (List.map CoreHours_value l) acc.
Proof.
  induction l as [|b l IH]; simpl; intros acc H; [reflexivity |].
  destruct H as (Hstep & Hrest).
  replace (cpuHours_step acc b) with (acc + CoreHours_value b)%float;
    [apply IH; exact Hrest |].
  unfold cpuHours_step.
  destruct Hstep as [Htruthy | Hcount].
  - rewrite Htruthy. reflexivity.
  - destruct (truthy_number (acc + CoreHours_value b));
      [reflexivity | symmetry; exact Hcount].
Qed.

(** The typed buckets are the elements of
    [body.aggregations.EndTime.buckets], in their order. *)
Lemma as_Root_buckets (body : value) (r : Root) :
  as_Root body = Some r ->
  exists raw,
    body_buckets body = Some raw /\
    List.length (EndTime_buckets r) = List.length raw /\
    forall i v, nth_error raw i = Some v ->
      exists b, as_Bucket v = Some b /\
                nth_error (EndTime_buckets r) i = Some b.
Proof.
  unfold as_Root. intros H. unbind H. injection H as <-. simpl.
  exists x8. split; [| split].
  - unfold body_buckets. simpl. rewrite E5, E6, E7. exact E8.
  - eapply traverse_length. eassumption.
  - intros i v Hv. eapply traverse_nth_error; eassumption.
Qed.

(** ** The two folds over buckets of any kind *)

Section Folds.

Context {P : Platform}.

Lemma reduce_from_add_Njobs (raw : list value) :
  forall acc total,
  Array.reduce_from add_Njobs raw acc = Normal total ->
  exists jobs,
    Forall2 (fun b v => get2 b "Njobs" "value" = Normal v) raw jobs /\
    sum_values acc jobs = Normal total.
Proof.
  induction raw as [|b raw IH]; simpl; intros acc total H.
  - exists []. split; [constructor | exact H].
  - apply bind_Normal in H as (acc' & Hstep & H).
    unfold add_Njobs in Hstep.
    apply bind_Normal in Hstep as (n & Hn & Hstep).
    apply bind_Normal in Hstep as (v & Hv & Hplus).
    destruct (IH _ _ H) as (jobs & Hjobs & Hsum).
    exists (v :: jobs). split.
    + constructor; [| exact Hjobs].
      unfold get2. rewrite Hn. exact Hv.
    + simpl. rewrite Hplus. exact Hsum.
Qed.

Lemma reduce_from_add_CoreHours_or_doc_count (raw : list value) :
  forall acc total,
  Array.reduce_from add_CoreHours_or_doc_count raw acc = Normal total ->
  exists terms : list (value * value),
    Forall2 (fun b t => get2 b "CoreHours" "value" = Normal (fst t) /\
                        get b "doc_count" = Normal (snd t)) raw terms /\
    total_or_count acc terms = Normal total.
Proof.
  induction raw as [|b raw IH]; simpl; intros acc total H.
  - exists []. split; [constructor | exact H].
  - apply bind_Normal in H as (acc' & Hstep & H).
    unfold add_CoreHours_or_doc_count in Hstep.
    apply bind_Normal in Hstep as (c & Hc & Hstep).
    apply bind_Normal in Hstep as (v & Hv & Hstep).
    apply bind_Normal in Hstep as (s & Hplus & Hstep).
    destruct (IH _ _ H) as (terms & Hterms & Htotal).
    assert (Hread : get2 b "CoreHours" "value" = Normal v)
      by (unfold get2; rewrite Hc; exact Hv).
    destruct (truthy s) eqn:Htruthy.
    + injection Hstep as <-.
      destruct (@get_again b c "CoreHours" "doc_count" Hc) as (d & Hd).
      exists ((v, d) :: terms). split.
      * constructor; [split; assumption | exact Hterms].
      * simpl. rewrite Hplus. simpl. rewrite Htruthy. exact Htotal.
    + exists ((v, acc') :: terms). split.
      * constructor; [split; assumption | exact Hterms].
      * simpl. rewrite Hplus. simpl. rewrite Htruthy. exact Htotal.
Qed.

Lemma total_or_count_keeps (terms : list (value * value)) :
  forall acc,
  fallback_keeps_value acc terms ->
  total_or_count acc terms = sum_values acc (List.map fst terms).
Proof.
  induction terms as [|[v d] terms IH]; simpl; intros acc H;
    [reflexivity |].
  destruct (plus acc v) as [s|e] eqn:Hplus; simpl; [| reflexivity].
  destruct (H s eq_refl) as (Hstep & Hrest).
  replace (if truthy s then s else d) with s; [apply IH; exact Hrest |].
  destruct Hstep as [-> | ->]; [reflexivity |].
  destruct (truthy s); reflexivity.
Qed.

End Folds.

(** * The specification, claim by claim *)

(** C1, amended. For every OK response whose body has parsed, whenever
    [graccQuery] returns a result (as it does on every body of the shape
    [Root]), [sumJobs] is the sum of [Njobs.value] over the buckets of
    [body.aggregations.EndTime.buckets], and [sumCpuHours] is the running
    total of [CoreHours.value] over those buckets in which a total that is
    falsy (0 or NaN) once a bucket's value is added is replaced by that
    bucket's [doc_count]. So [sumCpuHours] is the sum of [CoreHours.value]
    whenever no such replacement changes the total: at every bucket the
    total is truthy, or the bucket's [doc_count] equals it. *)
Theorem C1_sums {P : Platform}
    (fetch : string -> RequestInit -> completion Response)
    (start end_ : instant) (interval : string) (offset : option float)
    (init : RequestInit) (res : Response) (body : value) :
  let run := graccQuery fetch start end_ interval offset in
  request start end_ interval offset = Some init ->
  fetch search_url init = Normal res ->
  ok res = true ->
  json res = Normal body ->
  (forall result, outcome run = Normal result ->
     exists (raw jobs : list value) (terms : list (value * value))
            (jobs_sum hours_total : value),
       body_buckets body = Some raw /\
       Forall2 (fun b v => get2 b "Njobs" "value" = Normal v) raw jobs /\
       Forall2 (fun b t => get2 b "CoreHours" "value" = Normal (fst t) /\
                           get b "doc_count" = Normal (snd t)) raw terms /\
       field result "sumJobs" = Some jobs_sum /\
       sum_values (VNum 0) jobs = Normal jobs_sum /\
       field result "sumCpuHours" = Some hours_total /\
       total_or_count (VNum 0) terms = Normal hours_total /\
       (fallback_keeps_value (VNum 0) terms ->
        sum_values (VNum 0) (List.map fst terms) = Normal hours_total)) /\
  (forall r, as_Root body = Some r ->
     exists result : AnalysisResult,
       outcome run = Normal (AnalysisResult_object result) /\
       sumJobs result = sum_of (List.map Njobs_value (EndTime_buckets r)) /\
       sumCpuHours result =
         fold_left cpuHours_step (EndTime_buckets r) 0%float /\
       (fallback_keeps_total 0 (EndTime_buckets r) ->
        sumCpuHours result =
        sum_of (List.map CoreHours_value (EndTime_buckets r)))).
Proof.
  intros run Hinit Hres Hok Hbody. subst run. split.
  - intros result Hrun.
    destruct (graccQuery_returns _ _ _ _ _ Hinit Hres Hok Hrun)
      as (body' & totalJobs & Hbody' & _ & Hcraft & _).
    assert (body' = body) by congruence. subst body'.
    destruct (body_buckets body) as [raw|] eqn:Hraw;
      [| rewrite (craft_result_missing _ Hraw) in Hcraft;
         discriminate Hcraft].
    rewrite (craft_result_reads _ Hraw) in Hcraft.
    apply bind_Normal in Hcraft as (jobs_sum & Hjobs & Hcraft).
    apply bind_Normal in Hcraft as (hours_total & Hhours & Hcraft).
    apply bind_Normal in Hcraft as (points & _ & Hcraft).
    injection Hcraft as <-.
    apply reduce_from_add_Njobs in Hjobs as (jobs & Hread & Hsum).
    apply reduce_from_add_CoreHours_or_doc_count in Hhours
      as (terms & Hterms & Htotal).
    exists raw, jobs, terms, jobs_sum, hours_total.
    repeat split; try assumption.
    intros Hkeeps. rewrite <- (total_or_count_keeps _ _ Hkeeps).
    exact Htotal.
  - intros r Hr. exists (analyse r).
    rewrite (graccQuery_typed _ _ _ _ _ Hinit Hres Hok Hbody Hr).
    split; [reflexivity |]. split; [apply fold_left_sum |].
    split; [reflexivity |].
    intros H. apply fold_left_cpuHours_step. exact H.
Qed.

(** An hour without any record (0 CPU hours, [doc_count] 0) followed by an
    hour with 4 CPU hours: the first total, 0, is replaced by the
    [doc_count] 0, and [sumCpuHours] is the sum, 4. *)
Lemma C1_sums_witness :
  exists result : AnalysisResult,
    outcome (graccQuery (P := Example.platform)
               (Example.answers (Example.ok_response Example.empty_hour_first))
               Example.day_start Example.day_end "1h" None) =
      Normal (AnalysisResult_object result) /\
    sumJobs result = 3%float /\
    sumCpuHours result = 4%float.
Proof.
  destruct (@C1_sums Example.platform
              (Example.answers (Example.ok_response Example.empty_hour_first))
              Example.day_start Example.day_end "1h" None _ _ _
              eq_refl eq_refl eq_refl eq_refl)
    as (_ & Htyped).
  destruct (Htyped
              {| Root_took := 7;
                 hits_hits := [];
                 EndTime_buckets :=
                   [ {| key_as_string := "2023-01-10T19:00:00.000Z";
                        doc_count := 0; Njobs_value := 0;
                        CoreHours_value := 0 |};
                     {| key_as_string := "2023-01-10T20:00:00.000Z";
                        doc_count := 2; Njobs_value := 3;
                        CoreHours_value := 4 |} ] |}
              eq_refl)
    as (result & Hrun & Hjobs & _ & Hhours).
  exists result. split; [exact Hrun |]. split.
  - rewrite Hjobs. reflexivity.
  - rewrite Hhours; [reflexivity |].
    simpl. split; [right; reflexivity |].
    split; [left; reflexivity | exact I].
Defined.

(** C1 as stated fails: a single bucket with [CoreHours.value = 0] and
    [doc_count = 5] makes the running total falsy, [|| bucket.doc_count]
    takes over, and [sumCpuHours] is 5 while the CPU hours sum to 0. *)
Lemma C1_sumCpuHours_counterexample :
  let run :=
    graccQuery (P := Example.platform)
      (Example.answers (Example.ok_response Example.idle_bucket))
      Example.day_start Example.day_end "1h" None in
  let buckets :=
    [ {| key_as_string := "2023-01-10T19:00:00.000Z"; doc_count := 5;
         Njobs_value := 1; CoreHours_value := 0 |} ] in
  as_Root Example.idle_bucket =
    Some {| Root_took := 7; hits_hits := []; EndTime_buckets := buckets |} /\
  outcome run =
    Normal (AnalysisResult_object
              {| took := 7; sumJobs := 1; sumCpuHours := 5;
                 dataPoints :=
                   [ {| timestamp := "2023-01-10T19:00:00.000Z";
                        nJobs := 1; cpuHours := 0 |} ] |}) /\
  sum_of (List.map CoreHours_value buckets) = 0%float /\
  5%float <> sum_of (List.map CoreHours_value buckets).
Proof.
  repeat split. intros H. discriminate H.
Qed.

(** C2. For every OK response, the [dataPoints] of a returned result is an
    array with exactly one entry per element of
    [body.aggregations.EndTime.buckets], in the order of that array: entry
    [i] is an object whose [timestamp] is the [key_as_string] of bucket [i],
    whose [nJobs] is its [Njobs.value] and whose [cpuHours] is its
    [CoreHours.value]. A result is returned when the body has the shape
    [Root], and its data points are then the typed ones. *)
Theorem C2_dataPoints {P : Platform}
    (fetch : string -> RequestInit -> completion Response)
    (start end_ : instant) (interval : string) (offset : option float)
    (init : RequestInit) (res : Response) :
  let run := graccQuery fetch start end_ interval offset in
  request start end_ interval offset = Some init ->
  fetch search_url init = Normal res ->
  ok res = true ->
  (forall result, outcome run = Normal result ->
     exists (body : value) (raw points : list value),
       json res = Normal body /\
       body_buckets body = Some raw /\
       field result "dataPoints" = Some (VArr points) /\
       List.length points = List.length raw /\
       forall i bucket, nth_error raw i = Some bucket ->
         exists timestamp nJobs cpuHours,
           nth_error points i =
             Some (VObj [ ("timestamp", timestamp);
                          ("nJobs", nJobs);
                          ("cpuHours", cpuHours) ]) /\
           get bucket "key_as_string" = Normal timestamp /\
           get2 bucket "Njobs" "value" = Normal nJobs /\
           get2 bucket "CoreHours" "value" = Normal cpuHours) /\
  (forall body r, json res = Normal body -> as_Root body = Some r ->
     exists result : AnalysisResult,
       outcome run = Normal (AnalysisResult_object result) /\
       dataPoints result =
         List.map (fun b => {| timestamp := key_as_string b;
                               nJobs := Njobs_value b;
                               cpuHours := CoreHours_value b |})
                  (EndTime_buckets r)).
Proof.
  intros run Hinit Hres Hok. subst run. split.
  - intros result Hrun.
    destruct (graccQuery_returns _ _ _ _ _ Hinit Hres Hok Hrun)
      as (body & totalJobs & Hbody & _ & Hcraft & _).
    destruct (body_buckets body) as [raw|] eqn:Hraw;
      [| rewrite (craft_result_missing _ Hraw) in Hcraft;
         discriminate Hcraft].
    rewrite (craft_result_reads _ Hraw) in Hcraft.
    apply bind_Normal in Hcraft as (sumJobs & _ & Hcraft).
    apply bind_Normal in Hcraft as (sumCpuHours & _ & Hcraft).
    apply bind_Normal in Hcraft as (points & Hpoints & Hcraft).
    injection Hcraft as <-.
    destruct (map_elems_nth_error _ _ Hpoints) as (Hlen & Hnth).
    exists body, raw, points. repeat split; try assumption.
    intros i bucket Hi. destruct (Hnth i bucket Hi) as (point & Hpoint & Hp).
    apply dataPoint_reads in Hpoint
      as (timestamp & nJobs & cpuHours & Ht & Hn & Hc & ->).
    exists timestamp, nJobs, cpuHours. repeat split; assumption.
  - intros body r Hbody Hr. exists (analyse r).
    rewrite (graccQuery_typed _ _ _ _ _ Hinit Hres Hok Hbody Hr).
    split; reflexivity.
Qed.

(** The two buckets give two data points, in their order. *)
Lemma C2_dataPoints_witness :
  let res := Example.ok_response Example.two_buckets in
  let run :=
    graccQuery (P := Example.platform) (Example.answers res)
      Example.day_start Example.day_end "1h" None in
  ok res = true /\
  exists result : AnalysisResult,
    outcome run = Normal (AnalysisResult_object result) /\
    dataPoints result =
      [ {| timestamp := "2023-01-10T19:00:00.000Z";
           nJobs := 10; cpuHours := 2.5 |};
        {| timestamp := "2023-01-10T20:00:00.000Z";
           nJobs := 20; cpuHours := 4 |} ].
Proof.
  split; [reflexivity |].
  destruct (@C2_dataPoints Example.platform
              (Example.answers (Example.ok_response Example.two_buckets))
              Example.day_start Example.day_end "1h" None _ _
              eq_refl eq_refl eq_refl)
    as (_ & Htyped).
  exact (Htyped _ _ eq_refl eq_refl).
Defined.

(** C3, amended. [graccQuery] returns [null] only when the response is not
    OK; on a response that is not OK it logs "GRACC query failed" and, once
    the body of that response has parsed, logs the body and returns [null].
    On an OK response nothing is sent to [console.error] and [null] is not
    returned, and when the body has the shape [Root] the call returns an
    AnalysisResult, which is not [null]. Nothing else is handled during the
    call: an invalid Date or a rejected [fetch] ends it with the error
    thrown, and an error is logged by the call on no other path. The only
    other failure handling is in the callbacks of the two file writes, each
    of which logs its own message when its write fails. *)
Theorem C3_null_iff_not_ok {P : Platform}
    (fetch : string -> RequestInit -> completion Response)
    (start end_ : instant) (interval : string) (offset : option float) :
  let run := graccQuery fetch start end_ interval offset in
  (outcome run = Normal VNull ->
     exists init res failure,
       request start end_ interval offset = Some init /\
       fetch search_url init = Normal res /\
       ok res = false /\
       json res = Normal failure /\
       trace run = [ Fetch search_url init;
                     ConsoleError "GRACC query failed";
                     ConsoleLog failure ]) /\
  (forall init res,
     request start end_ interval offset = Some init ->
     fetch search_url init = Normal res ->
     (ok res = false ->
        errors (trace run) = [ "GRACC query failed" ] /\
        callback_errors (fun _ => true) (trace run) = [] /\
        forall failure, json res = Normal failure ->
          outcome run = Normal VNull) /\
     (ok res = true ->
        errors (trace run) = [] /\
        outcome run <> Normal VNull /\
        forall body r, json res = Normal body -> as_Root body = Some r ->
          (exists result : AnalysisResult,
             outcome run = Normal (AnalysisResult_object result) /\
             AnalysisResult_object result <> VNull) /\
          forall failed,
            callback_errors failed (trace run) =
              ((if failed "responseOut.json"
                then [ "failed to write to response body output file" ]
                else []) ++
               (if failed "dataOut.json"
                then [ "failed to write to data output file" ]
                else []))%list)) /\
  (errors (trace run) <> [] ->
     exists init res,
       request start end_ interval offset = Some init /\
       fetch search_url init = Normal res /\
       ok res = false) /\
  (request start end_ interval offset = None ->
     run = ([], Throw RangeError)) /\
  (forall init e,
     request start end_ interval offset = Some init ->
     fetch search_url init = Throw e ->
     run = ([ Fetch search_url init ], Throw e)) /\
  (forall failed m,
     In m (callback_errors failed (trace run)) ->
     m = "failed to write to response body output file" \/
     m = "failed to write to data output file").
Proof.
  intros run. subst run.
  split; [| split; [| split; [| split; [| split]]]].
  - destruct (request start end_ interval offset) as [init|] eqn:Hinit;
      [| rewrite (graccQuery_unrendered fetch _ _ _ _ Hinit); discriminate].
    destruct (fetch search_url init) as [res|e] eqn:Hres;
      [| rewrite (graccQuery_unanswered _ _ _ _ _ Hinit Hres); discriminate].
    destruct (ok res) eqn:Hok.
    + intros Hnull.
      destruct (graccQuery_succeeded_quietly _ _ _ _ _ Hinit Hres Hok)
        as (Hnot & _).
      contradiction.
    + rewrite (graccQuery_failed _ _ _ _ _ Hinit Hres Hok).
      destruct (json res) as [failure|] eqn:Hjson; [| discriminate].
      intros _. exists init, res, failure. repeat split; assumption.
  - intros init res Hinit Hres. split.
    + intros Hok. rewrite (graccQuery_failed _ _ _ _ _ Hinit Hres Hok).
      destruct (json res) as [failure|];
        (split; [reflexivity |]; split; [reflexivity |]);
        intros failure' H; [reflexivity | discriminate H].
    + intros Hok.
      destruct (graccQuery_succeeded_quietly _ _ _ _ _ Hinit Hres Hok)
        as (Hnot & Herrors).
      split; [exact Herrors |]. split; [exact Hnot |].
      intros body r Hbody Hr.
      rewrite (graccQuery_typed _ _ _ _ _ Hinit Hres Hok Hbody Hr).
      split.
      * exists (analyse r). split; [reflexivity | discriminate].
      * intros failed. simpl.
        destruct (failed "responseOut.json"), (failed "dataOut.json");
          reflexivity.
  - destruct (request start end_ interval offset) as [init|] eqn:Hinit;
      [| rewrite (graccQuery_unrendered fetch _ _ _ _ Hinit);
         intros H; contradiction H; reflexivity].
    destruct (fetch search_url init) as [res|e] eqn:Hres;
      [| rewrite (graccQuery_unanswered _ _ _ _ _ Hinit Hres);
         intros H; contradiction H; reflexivity].
    destruct (ok res) eqn:Hok.
    + destruct (graccQuery_succeeded_quietly _ _ _ _ _ Hinit Hres Hok)
        as (_ & Herrors).
      intros H. contradiction.
    + intros _. exists init, res. repeat split; assumption.
  - intros Hinit. apply graccQuery_unrendered. exact Hinit.
  - intros init e Hinit Hres. apply graccQuery_unanswered; assumption.
  - intros failed m.
    destruct (request start end_ interval offset) as [init|] eqn:Hinit;
      [| rewrite (graccQuery_unrendered fetch _ _ _ _ Hinit);
         intros []].
    destruct (fetch search_url init) as [res|e] eqn:Hres;
      [| rewrite (graccQuery_unanswered _ _ _ _ _ Hinit Hres); intros []].
    destruct (ok res) eqn:Hok.
    + rewrite (graccQuery_succeeded _ _ _ _ _ Hinit Hres Hok).
      destruct (json res) as [body|]; [| intros []]. simpl.
      destruct (total_hits_CoreHours body);
        [destruct (craft_result body) |]; simpl;
        destruct (failed "responseOut.json");
        try destruct (failed "dataOut.json"); simpl; intuition congruence.
    + rewrite (graccQuery_failed _ _ _ _ _ Hinit Hres Hok).
      destruct (json res); intros [].
Qed.

(** An OK response with a body of the shape [Root]: an AnalysisResult is
    returned, and no error is logged unless a write fails. *)
Lemma C3_null_iff_not_ok_witness :
  let res := Example.ok_response Example.two_buckets in
  let run :=
    graccQuery (P := Example.platform) (Example.answers res)
      Example.day_start Example.day_end "1h" None in
  ok res = true /\
  outcome run <> Normal VNull /\
  errors (trace run) = [] /\
  (exists result : AnalysisResult,
     outcome run = Normal (AnalysisResult_object result)) /\
  callback_errors (fun file => String.eqb file "dataOut.json") (trace run) =
    [ "failed to write to data output file" ].
Proof.
  destruct (@C3_null_iff_not_ok Example.platform
              (Example.answers (Example.ok_response Example.two_buckets))
              Example.day_start Example.day_end "1h" None)
    as (_ & Hresponse & _).
  destruct (Hresponse _ _ eq_refl eq_refl) as (_ & Hok).
  destruct (Hok eq_refl) as (Herrors & Hnot & Htyped).
  destruct (Htyped _ _ eq_refl eq_refl) as ((result & Hrun & _) & Hcallbacks).
  split; [reflexivity |]. split; [exact Hnot |]. split; [exact Herrors |].
  split; [exists result; exact Hrun |].
  exact (Hcallbacks (fun file => String.eqb file "dataOut.json")).
Defined.

(** C3 as stated fails twice. An OK response whose body is not of the
    shape [Root] does not give an AnalysisResult: with the body [{}],
    reading [body.hits.hits] throws a TypeError. And a response that is not
    OK does not always give [null]: when its body is not JSON,
    [res.json()] rejects after the error has been logged. *)
Lemma C3_not_every_ok_response_returns :
  let res := Example.ok_response (VObj []) in
  let run :=
    graccQuery (P := Example.platform) (Example.answers res)
      Example.day_start Example.day_end "1h" None in
  let failed :=
    graccQuery (P := Example.platform) (Example.answers Example.bad_gateway)
      Example.day_start Example.day_end "1h" None in
  ok res = true /\
  outcome run = Throw TypeError /\
  ok Example.bad_gateway = false /\
  errors (trace failed) = [ "GRACC query failed" ] /\
  outcome failed = Throw SyntaxError.
Proof.
  repeat split.
Qed.

(** C4. For all arguments, once [start] and [end] have been rendered (a
    string as it is, a Date through [toISOString], which throws on an
    invalid Date), the one request of [graccQuery] posts a query whose
    [bool] filter is made of exactly three clauses, a range on [EndTime]
    with [gte] the start and [lt] the end, the term
    [ResourceType = "Batch"] and a [must_not] of the terms [SiteName] in
    NONE, Generic, Obsolete and [VOName] in Unknown, unknown, other; and
    whose aggregation is a [date_histogram] on [EndTime] with the
    sub-aggregations that sum [CoreHours] and [Njobs]. *)
Theorem C4_query {P : Platform}
    (fetch : string -> RequestInit -> completion Response)
    (start end_ : instant) (interval : string) (offset : option float)
    (startStr endStr : string) :
  render start = Normal startStr ->
  render end_ = Normal endStr ->
  exists q : value,
    requests (trace (graccQuery fetch start end_ interval offset)) =
      [ (search_url,
         {| method := "POST";
            body := JSON_stringify q (Some 2);
            headers := [ ("Content-Type", "application/json") ] |}) ] /\
    path q [ Key "query"; Key "bool"; Key "filter"; Index 0 ] =
      Some (VObj [ ("range", VObj [ ("EndTime", VObj
              [ ("gte", VStr startStr);
                ("lt", VStr endStr) ]) ]) ]) /\
    path q [ Key "query"; Key "bool"; Key "filter"; Index 1 ] =
      Some (VObj [ ("term", VObj [ ("ResourceType", VStr "Batch") ]) ]) /\
    path q [ Key "query"; Key "bool"; Key "filter"; Index 2 ] =
      Some (VObj [ ("bool", VObj [ ("must_not", VArr
              [ VObj [ ("terms", VObj [ ("SiteName", VArr
                  [ VStr "NONE"; VStr "Generic"; VStr "Obsolete" ]) ]) ];
                VObj [ ("terms", VObj [ ("VOName", VArr
                  [ VStr "Unknown"; VStr "unknown"; VStr "other" ]) ]) ]
              ]) ]) ]) /\
    path q [ Key "query"; Key "bool"; Key "filter"; Index 3 ] = None /\
    path q [ Key "aggs"; Key "EndTime"; Key "date_histogram"; Key "field" ] =
      Some (VStr "EndTime") /\
    path q [ Key "aggs"; Key "EndTime"; Key "aggs" ] =
      Some (VObj
        [ ("CoreHours", VObj [ ("sum", VObj [ ("field", VStr "CoreHours") ]) ]);
          ("Njobs", VObj [ ("sum", VObj [ ("field", VStr "Njobs") ]) ]) ]) /\
    (forall s, render (OfString s) = Normal s) /\
    (forall d, render (OfDate d) =
               match toISOString d with
               | Some s => Normal s
               | None => Throw RangeError
               end).
Proof.
  intros Hstart Hend.
  exists (query startStr endStr interval (offsetStr offset)).
  split; [| repeat split].
  rewrite graccQuery_requests. unfold request. rewrite Hstart, Hend.
  reflexivity.
Qed.

(** A day given by a string and a Date. *)
Lemma C4_query_witness :
  exists q : value,
    requests (trace (graccQuery (P := Example.platform)
                       (Example.answers
                          (Example.ok_response Example.two_buckets))
                       Example.day_start Example.day_end_date "1h" None)) =
      [ (search_url,
         {| method := "POST";
            body := JSON_stringify q (Some 2);
            headers := [ ("Content-Type", "application/json") ] |}) ] /\
    path q [ Key "query"; Key "bool"; Key "filter"; Index 0 ] =
      Some (VObj [ ("range", VObj [ ("EndTime", VObj
              [ ("gte", VStr "2023-01-10T19:22:28.000Z");
                ("lt", VStr "2023-01-11T19:22:28.000Z") ]) ]) ]).
Proof.
  destruct (@C4_query Example.platform
              (Example.answers (Example.ok_response Example.two_buckets))
              Example.day_start Example.day_end_date "1h" None _ _
              eq_refl eq_refl)
    as (q & Hrequests & Hrange & _).
  exists q. split; [exact Hrequests | exact Hrange].
Defined.

(** C5, amended. For every interval string and every offset, the
    [date_histogram] of the query that is posted once [start] and [end]
    have been rendered carries the interval exactly as it was given, as
    [fixed_interval]; the offset is carried as the string made of "-", the
    number and "s" when one is given, and as [undefined] when it is
    omitted. Neither is checked, and no value of either is treated
    differently from the others. *)
Theorem C5_interval_offset {P : Platform}
    (fetch : string -> RequestInit -> completion Response)
    (start end_ : instant) (interval : string) (offset : option float)
    (startStr endStr : string) :
  render start = Normal startStr ->
  render end_ = Normal endStr ->
  exists init : RequestInit,
    requests (trace (graccQuery fetch start end_ interval offset)) =
      [ (search_url, init) ] /\
    path (posted init)
      [ Key "aggs"; Key "EndTime"; Key "date_histogram";
        Key "fixed_interval" ] = Some (VStr interval) /\
    path (posted init)
      [ Key "aggs"; Key "EndTime"; Key "date_histogram"; Key "offset" ] =
      Some match offset with
           | Some o => VStr ("-" ++ Number_toString o ++ "s")
           | None => VUndefined
           end.
Proof.
  intros Hstart Hend.
  exists (search_init (query startStr endStr interval (offsetStr offset))).
  split; [| split; [reflexivity | destruct offset; reflexivity]].
  rewrite graccQuery_requests. unfold request. rewrite Hstart, Hend.
  reflexivity.
Qed.

(** The interval "90m" and no offset. *)
Lemma C5_interval_offset_witness :
  exists init : RequestInit,
    requests (trace (graccQuery (P := Example.platform)
                       (Example.answers
                          (Example.ok_response Example.two_buckets))
                       Example.day_start Example.day_end_date "90m" None)) =
      [ (search_url, init) ] /\
    path (posted init)
      [ Key "aggs"; Key "EndTime"; Key "date_histogram";
        Key "fixed_interval" ] = Some (VStr "90m") /\
    path (posted init)
      [ Key "aggs"; Key "EndTime"; Key "date_histogram"; Key "offset" ] =
      Some VUndefined.
Proof.
  exact (@C5_interval_offset Example.platform
           (Example.answers (Example.ok_response Example.two_buckets))
           Example.day_start Example.day_end_date "90m" None _ _
           eq_refl eq_refl).
Defined.

(** C5 as stated fails: called with the offset 3600, the query does not
    carry the number 3600 but the string "-3600s". *)
Lemma C5_offset_counterexample :
  let run :=
    graccQuery (P := Example.platform)
      (Example.answers (Example.ok_response Example.two_buckets))
      Example.day_start Example.day_end "1h" (Some 3600%float) in
  exists init : RequestInit,
    requests (trace run) = [ (search_url, init) ] /\
    path (posted init)
      [ Key "aggs"; Key "EndTime"; Key "date_histogram"; Key "offset" ] =
      Some (VStr "-3600s") /\
    path (posted init)
      [ Key "aggs"; Key "EndTime"; Key "date_histogram"; Key "offset" ] <>
      Some (VNum 3600).
Proof.
  eexists. split; [reflexivity |]. split; [reflexivity |].
  intros H. discriminate H.
Qed.

(** C6, amended. On every OK response whose body has parsed, the raw body
    is written, JSON-serialized, to "responseOut.json"; the derived
    AnalysisResult summary is then written, JSON-serialized, to
    "dataOut.json" exactly when the call returns it, as it does when the
    body has the shape [Root]. An OK response whose body does not parse
    ends the call before either write. *)
Theorem C6_writes {P : Platform}
    (fetch : string -> RequestInit -> completion Response)
    (start end_ : instant) (interval : string) (offset : option float)
    (init : RequestInit) (res : Response) :
  let run := graccQuery fetch start end_ interval offset in
  request start end_ interval offset = Some init ->
  fetch search_url init = Normal res ->
  ok res = true ->
  (forall body, json res = Normal body ->
     writes (trace run) =
       ("responseOut.json", JSON_stringify body None) ::
       match outcome run with
       | Normal result => [ ("dataOut.json", JSON_stringify result (Some 2)) ]
       | Throw _ => []
       end) /\
  (forall body r, json res = Normal body -> as_Root body = Some r ->
     exists result : AnalysisResult,
       outcome run = Normal (AnalysisResult_object result) /\
       writes (trace run) =
         [ ("responseOut.json", JSON_stringify body None);
           ("dataOut.json",
            JSON_stringify (AnalysisResult_object result) (Some 2)) ]) /\
  (forall e, json res = Throw e ->
     writes (trace run) = [] /\ outcome run = Throw e).
Proof.
  intros run Hinit Hres Hok. subst run. split; [| split].
  - intros body Hbody.
    rewrite (graccQuery_succeeded _ _ _ _ _ Hinit Hres Hok). rewrite Hbody.
    simpl.
    destruct (total_hits_CoreHours body); [| reflexivity].
    destruct (craft_result body); reflexivity.
  - intros body r Hbody Hr. exists (analyse r).
    rewrite (graccQuery_typed _ _ _ _ _ Hinit Hres Hok Hbody Hr).
    split; reflexivity.
  - intros e He.
    rewrite (graccQuery_succeeded _ _ _ _ _ Hinit Hres Hok). rewrite He.
    split; reflexivity.
Qed.

(** Both writes on the response with two buckets. *)
Lemma C6_writes_witness :
  let res := Example.ok_response Example.two_buckets in
  let run :=
    graccQuery (P := Example.platform) (Example.answers res)
      Example.day_start Example.day_end "1h" None in
  ok res = true /\
  exists result : AnalysisResult,
    outcome run = Normal (AnalysisResult_object result) /\
    writes (trace run) =
      [ ("responseOut.json", JSON_stringify Example.two_buckets None);
        ("dataOut.json",
         JSON_stringify (AnalysisResult_object result) (Some 2)) ].
Proof.
  split; [reflexivity |].
  destruct (@C6_writes Example.platform
              (Example.answers (Example.ok_response Example.two_buckets))
              Example.day_start Example.day_end "1h" None _ _
              eq_refl eq_refl eq_refl)
    as (_ & Hboth & _).
  exact (Hboth _ _ eq_refl eq_refl).
Defined.

(** C6 as stated fails on an OK response whose body is not of the shape
    [Root]: with the body [{}] the call throws after the first write, and
    "dataOut.json" is not written. It fails too on an OK response whose
    body is not JSON, an empty body for one: nothing is written. *)
Lemma C6_second_write_counterexample :
  let res := Example.ok_response (VObj []) in
  let run :=
    graccQuery (P := Example.platform) (Example.answers res)
      Example.day_start Example.day_end "1h" None in
  let empty := {| ok := true; json := Throw SyntaxError |} in
  let run_empty :=
    graccQuery (P := Example.platform) (Example.answers empty)
      Example.day_start Example.day_end "1h" None in
  ok res = true /\
  writes (trace run) =
    [ ("responseOut.json", JSON_stringify (VObj []) None) ] /\
  ok empty = true /\
  writes (trace run_empty) = [].
Proof.
  repeat split.
Qed.

(** C7. The body of an OK response is not checked. When it has the shape
    [Root] the success path runs to its end and returns the AnalysisResult.
    Whatever the body, the call does not return [null] and sends nothing to
    [console.error]: a body without an array at [hits.hits] or at
    [aggregations.EndTime.buckets] makes a property access or a method call
    throw a TypeError, a body without [took] that gets through yields a
    result whose [took] is [undefined], and a body that is not JSON makes
    the call reject with the error of [res.json()]. *)
Theorem C7_unchecked_body {P : Platform}
    (fetch : string -> RequestInit -> completion Response)
    (start end_ : instant) (interval : string) (offset : option float)
    (init : RequestInit) (res : Response) :
  let run := graccQuery fetch start end_ interval offset in
  request start end_ interval offset = Some init ->
  fetch search_url init = Normal res ->
  ok res = true ->
  (forall body r, json res = Normal body -> as_Root body = Some r ->
     outcome run = Normal (AnalysisResult_object (analyse r))) /\
  outcome run <> Normal VNull /\
  errors (trace run) = [] /\
  (forall body, json res = Normal body ->
     body_hits body = None \/ body_buckets body = None ->
     outcome run = Throw TypeError) /\
  (forall body result, json res = Normal body ->
     field body "took" = None ->
     outcome run = Normal result ->
     field result "took" = Some VUndefined) /\
  (forall e, json res = Throw e -> outcome run = Throw e).
Proof.
  intros run Hinit Hres Hok. subst run.
  destruct (graccQuery_succeeded_quietly _ _ _ _ _ Hinit Hres Hok)
    as (Hnot & Herrors).
  split; [| split; [exact Hnot | split; [exact Herrors | split; [| split]]]].
  - intros body r Hbody Hr.
    rewrite (graccQuery_typed _ _ _ _ _ Hinit Hres Hok Hbody Hr).
    reflexivity.
  - intros body Hbody Hmissing.
    rewrite (graccQuery_succeeded _ _ _ _ _ Hinit Hres Hok). rewrite Hbody.
    simpl. destruct Hmissing as [Hhits | Hbuckets].
    + rewrite (total_hits_CoreHours_missing _ Hhits). reflexivity.
    + rewrite (craft_result_missing _ Hbuckets).
      destruct (total_hits_CoreHours body) as [totalJobs|e] eqn:Htotal;
        [reflexivity |].
      apply total_hits_CoreHours_throws in Htotal. subst. reflexivity.
  - intros body result Hbody Htook Hrun.
    destruct (graccQuery_returns _ _ _ _ _ Hinit Hres Hok Hrun)
      as (body' & totalJobs & Hbody' & _ & Hcraft & _).
    assert (body' = body) by congruence. subst body'.
    exact (craft_result_took _ Hcraft Htook).
  - intros e He.
    rewrite (graccQuery_succeeded _ _ _ _ _ Hinit Hres Hok). rewrite He.
    reflexivity.
Qed.

(** The body [{}] is written to "responseOut.json"; then
    [body.hits.hits] throws. *)
Lemma C7_unchecked_body_witness :
  let res := Example.ok_response (VObj []) in
  let run :=
    graccQuery (P := Example.platform) (Example.answers res)
      Example.day_start Example.day_end "1h" None in
  ok res = true /\
  as_Root (VObj []) = None /\
  outcome run = Throw TypeError /\
  errors (trace run) = [].
Proof.
  destruct (@C7_unchecked_body Example.platform
              (Example.answers (Example.ok_response (VObj [])))
              Example.day_start Example.day_end "1h" None _ _
              eq_refl eq_refl eq_refl)
    as (_ & _ & Herrors & Hthrow & _).
  split; [reflexivity |]. split; [reflexivity |].
  split; [| exact Herrors].
  apply (Hthrow _ eq_refl). left. reflexivity.
Defined.

(** C8, amended. A call issues at most one HTTP request, and exactly one
    once [start] and [end] have been rendered: an invalid Date makes
    [toISOString] throw before anything is sent. The request is the same
    whatever the service does with it, and the service is consulted for
    that one request only, so nothing is retried, in particular not after
    an answer that is not OK. *)
Theorem C8_one_request {P : Platform}
    (fetch : string -> RequestInit -> completion Response)
    (start end_ : instant) (interval : string) (offset : option float) :
  let run := graccQuery fetch start end_ interval offset in
  requests (trace run) =
    match request start end_ interval offset with
    | Some init => [ (search_url, init) ]
    | None => []
    end /\
  List.length (requests (trace run)) <= 1 /\
  (forall startStr endStr,
     render start = Normal startStr -> render end_ = Normal endStr ->
     requests (trace run) =
       [ (search_url,
          search_init (query startStr endStr interval (offsetStr offset))) ] /\
     List.length (requests (trace run)) = 1) /\
  (forall init res,
     request start end_ interval offset = Some init ->
     fetch search_url init = Normal res ->
     ok res = false ->
     requests (trace run) = [ (search_url, init) ]) /\
  (forall fetch' : string -> RequestInit -> completion Response,
     (forall init, request start end_ interval offset = Some init ->
        fetch' search_url init = fetch search_url init) ->
     graccQuery fetch' start end_ interval offset = run).
Proof.
  intros run. subst run. rewrite graccQuery_requests.
  split; [reflexivity |].
  split; [| split; [| split]].
  - destruct (request start end_ interval offset); simpl;
      repeat constructor.
  - intros startStr endStr Hstart Hend. unfold request.
    rewrite Hstart, Hend. split; reflexivity.
  - intros init res Hinit _ _. rewrite Hinit. reflexivity.
  - intros fetch' Hsame.
    destruct (request start end_ interval offset) as [init|] eqn:Hinit.
    + specialize (Hsame init eq_refl).
      destruct (fetch search_url init) as [res|e] eqn:Hres.
      * destruct (ok res) eqn:Hok.
        -- rewrite (graccQuery_succeeded _ _ _ _ _ Hinit Hsame Hok).
           rewrite (graccQuery_succeeded _ _ _ _ _ Hinit Hres Hok).
           reflexivity.
        -- rewrite (graccQuery_failed _ _ _ _ _ Hinit Hsame Hok).
           rewrite (graccQuery_failed _ _ _ _ _ Hinit Hres Hok).
           reflexivity.
      * rewrite (graccQuery_unanswered _ _ _ _ _ Hinit Hsame).
        rewrite (graccQuery_unanswered _ _ _ _ _ Hinit Hres).
        reflexivity.
    + rewrite (graccQuery_unrendered fetch' _ _ _ _ Hinit).
      rewrite (graccQuery_unrendered fetch _ _ _ _ Hinit).
      reflexivity.
Qed.

(** C8 as stated fails: called with an invalid Date as [start], the call
    throws a RangeError at [start.toISOString()] and issues no request. *)
Lemma C8_invalid_date_counterexample :
  let run :=
    graccQuery (P := Example.platform)
      (Example.answers (Example.ok_response Example.two_buckets))
      Example.invalid_date Example.day_end "1h" None in
  render (P := Example.platform) Example.invalid_date = Throw RangeError /\
  requests (trace run) = [] /\
  run = ([], Throw RangeError).
Proof.
  repeat split.
Qed.

(** C9, on the code. When the response is not OK, no file write is
    started. The error is logged, and then the body of the response is
    parsed to be logged too: when it parses the call returns [null], and
    when it does not the call rejects with the error of [res.json()]
    instead of returning [null]. *)
Theorem C9_failure_path {P : Platform}
    (fetch : string -> RequestInit -> completion Response)
    (start end_ : instant) (interval : string) (offset : option float)
    (init : RequestInit) (res : Response) :
  let run := graccQuery fetch start end_ interval offset in
  request start end_ interval offset = Some init ->
  fetch search_url init = Normal res ->
  ok res = false ->
  writes (trace run) = [] /\
  (forall failure, json res = Normal failure ->
     run = ([ Fetch search_url init;
              ConsoleError "GRACC query failed";
              ConsoleLog failure ],
            Normal VNull)) /\
  (forall e, json res = Throw e ->
     run = ([ Fetch search_url init; ConsoleError "GRACC query failed" ],
            Throw e)).
Proof.
  intros run Hinit Hres Hok. subst run.
  rewrite (graccQuery_failed _ _ _ _ _ Hinit Hres Hok).
  destruct (json res) as [failure|e]; repeat split;
    intros x Hx; try discriminate Hx; injection Hx as <-; reflexivity.
Qed.

(** A 502 with an HTML page as its body: nothing is written, and the call
    rejects with a SyntaxError. *)
Lemma C9_failure_path_witness :
  let run :=
    graccQuery (P := Example.platform) (Example.answers Example.bad_gateway)
      Example.day_start Example.day_end "1h" None in
  ok Example.bad_gateway = false /\
  writes (trace run) = [] /\
  errors (trace run) = [ "GRACC query failed" ] /\
  outcome run = Throw SyntaxError /\
  outcome run <> Normal VNull.
Proof.
  destruct (@C9_failure_path Example.platform
              (Example.answers Example.bad_gateway)
              Example.day_start Example.day_end "1h" None _ _
              eq_refl eq_refl eq_refl)
    as (Hwrites & _ & Hrejects).
  split; [reflexivity |]. split; [exact Hwrites |].
  rewrite (Hrejects _ eq_refl).
  split; [reflexivity |]. split; [reflexivity | discriminate].
Defined.

(** C10, amended. The returned result depends on the body of an OK
    response only through [took] and [aggregations.EndTime.buckets]: two
    calls, with any arguments, whose OK responses agree on these two parts
    return the same result whenever both return one, whatever else the
    bodies hold, the hits in particular; both do when the bodies have the
    shape [Root]. The hits decide whether a call returns at all, as
    [totalJobs] is computed from them before the result is built: when one
    call returns, the other returns the same result or is stopped by its
    hits, after the write of "responseOut.json" and before that of
    "dataOut.json"; it is stopped with a TypeError when [hits.hits] is not
    an array or holds an element without [_source]. Other than that the
    hits reach [console.log(totalJobs)] and, with the rest of the raw body,
    "responseOut.json". *)
Theorem C10_result_ignores_hits {P : Platform}
    (fetch1 fetch2 : string -> RequestInit -> completion Response)
    (start1 end1 start2 end2 : instant) (interval1 interval2 : string)
    (offset1 offset2 : option float)
    (init1 init2 : RequestInit) (res1 res2 : Response)
    (body1 body2 : value) :
  let run1 := graccQuery fetch1 start1 end1 interval1 offset1 in
  let run2 := graccQuery fetch2 start2 end2 interval2 offset2 in
  request start1 end1 interval1 offset1 = Some init1 ->
  fetch1 search_url init1 = Normal res1 ->
  ok res1 = true ->
  json res1 = Normal body1 ->
  request start2 end2 interval2 offset2 = Some init2 ->
  fetch2 search_url init2 = Normal res2 ->
  ok res2 = true ->
  json res2 = Normal body2 ->
  field body1 "took" = field body2 "took" ->
  path body1 [ Key "aggregations"; Key "EndTime"; Key "buckets" ] =
  path body2 [ Key "aggregations"; Key "EndTime"; Key "buckets" ] ->
  (forall result1 result2,
     outcome run1 = Normal result1 -> outcome run2 = Normal result2 ->
     result1 = result2) /\
  (forall r1 r2,
     as_Root body1 = Some r1 -> as_Root body2 = Some r2 ->
     exists result : AnalysisResult,
       let data := JSON_stringify (AnalysisResult_object result) (Some 2) in
       run1 =
         ([ Fetch search_url init1;
            WriteFile "responseOut.json" (JSON_stringify body1 None)
              "failed to write to response body output file";
            ConsoleLog (VNum (total_CoreHours (hits_hits r1)));
            WriteFile "dataOut.json" data
              "failed to write to data output file" ],
          Normal (AnalysisResult_object result)) /\
       run2 =
         ([ Fetch search_url init2;
            WriteFile "responseOut.json" (JSON_stringify body2 None)
              "failed to write to response body output file";
            ConsoleLog (VNum (total_CoreHours (hits_hits r2)));
            WriteFile "dataOut.json" data
              "failed to write to data output file" ],
          Normal (AnalysisResult_object result))) /\
  (forall result, outcome run1 = Normal result ->
     outcome run2 = Normal result \/
     (total_hits_CoreHours body2 = Throw TypeError /\
      run2 =
        ([ Fetch search_url init2;
           WriteFile "responseOut.json" (JSON_stringify body2 None)
             "failed to write to response body output file" ],
         Throw TypeError))) /\
  (body_hits body2 = None \/
   (exists hs, body_hits body2 = Some hs /\
               Exists (fun h => field h "_source" = None) hs) ->
   outcome run2 = Throw TypeError /\
   writes (trace run2) =
     [ ("responseOut.json", JSON_stringify body2 None) ]).
Proof.
  intros run1 run2 Hinit1 Hres1 Hok1 Hbody1 Hinit2 Hres2 Hok2 Hbody2
    Htook Hbuckets.
  subst run1 run2.
  assert (Hcraft : craft_result body1 = craft_result body2)
    by (apply craft_result_agree; assumption).
  split; [| split; [| split]].
  - intros result1 result2 H1 H2.
    destruct (graccQuery_returns _ _ _ _ _ Hinit1 Hres1 Hok1 H1)
      as (b1 & t1 & Hb1 & _ & Hc1 & _).
    destruct (graccQuery_returns _ _ _ _ _ Hinit2 Hres2 Hok2 H2)
      as (b2 & t2 & Hb2 & _ & Hc2 & _).
    assert (b1 = body1) by congruence.
    assert (b2 = body2) by congruence.
    subst b1 b2. congruence.
  - intros r1 r2 Hr1 Hr2.
    rewrite (craft_result_typed _ Hr1), (craft_result_typed _ Hr2) in Hcraft.
    assert (Hsame : AnalysisResult_object (analyse r1) =
                    AnalysisResult_object (analyse r2)) by congruence.
    rewrite (graccQuery_typed _ _ _ _ _ Hinit1 Hres1 Hok1 Hbody1 Hr1).
    rewrite (graccQuery_typed _ _ _ _ _ Hinit2 Hres2 Hok2 Hbody2 Hr2).
    exists (analyse r1). simpl. rewrite <- Hsame. split; reflexivity.
  - intros result H1.
    destruct (graccQuery_returns _ _ _ _ _ Hinit1 Hres1 Hok1 H1)
      as (b1 & t1 & Hb1 & _ & Hc1 & _).
    assert (b1 = body1) by congruence. subst b1.
    rewrite Hcraft in Hc1.
    rewrite (graccQuery_succeeded _ _ _ _ _ Hinit2 Hres2 Hok2).
    rewrite Hbody2. simpl.
    destruct (total_hits_CoreHours body2) as [t2|e] eqn:Htotal.
    + left. rewrite Hc1. reflexivity.
    + right. apply total_hits_CoreHours_throws in Htotal. subst e.
      split; reflexivity.
  - intros Hhits.
    assert (Htotal : total_hits_CoreHours body2 = Throw TypeError).
    { destruct Hhits as [Hnone | (hs & Hhs & Hbad)].
      - apply total_hits_CoreHours_missing. exact Hnone.
      - rewrite (total_hits_CoreHours_reads _ Hhs).
        apply reduce_from_no_source. exact Hbad. }
    rewrite (graccQuery_succeeded _ _ _ _ _ Hinit2 Hres2 Hok2).
    rewrite Hbody2. simpl. rewrite Htotal. split; reflexivity.
Qed.

(** Two bodies with the same [took] and buckets and different hits,
    queried with different intervals and offsets. *)
Lemma C10_result_ignores_hits_witness :
  let body1 := Example.response_body 7 [ Example.hit 1.5 ]
                 [ Example.bucket "2023-01-10T19:00:00.000Z" 3 10 2.5 ] in
  let body2 := Example.response_body 7 [ Example.hit 8; Example.hit 9 ]
                 [ Example.bucket "2023-01-10T19:00:00.000Z" 3 10 2.5 ] in
  let run1 :=
    graccQuery (P := Example.platform)
      (Example.answers (Example.ok_response body1))
      Example.day_start Example.day_end "1h" None in
  let run2 :=
    graccQuery (P := Example.platform)
      (Example.answers (Example.ok_response body2))
      Example.day_start Example.day_end "1d" (Some 60%float) in
  body1 <> body2 /\
  exists result : AnalysisResult,
    outcome run1 = Normal (AnalysisResult_object result) /\
    outcome run2 = Normal (AnalysisResult_object result).
Proof.
  intros body1 body2 run1 run2. split; [discriminate |].
  destruct (@C10_result_ignores_hits Example.platform
              (Example.answers (Example.ok_response body1))
              (Example.answers (Example.ok_response body2))
              Example.day_start Example.day_end
              Example.day_start Example.day_end
              "1h" "1d" None (Some 60%float) _ _ _ _ body1 body2
              eq_refl eq_refl eq_refl eq_refl
              eq_refl eq_refl eq_refl eq_refl eq_refl eq_refl)
    as (_ & Htyped & _).
  destruct (Htyped _ _ eq_refl eq_refl) as (result & H1 & H2).
  exists result. subst run1 run2. rewrite H1, H2. split; reflexivity.
Defined.

(** C10 as stated fails: two OK bodies with the same [took] and the same
    buckets, of which the second holds a hit without [_source]. The first
    call returns the result; the second throws a TypeError while it
    computes [totalJobs], returns nothing and does not write
    "dataOut.json". *)
Lemma C10_hits_counterexample :
  let buckets := [ Example.bucket "2023-01-10T19:00:00.000Z" 3 10 2.5 ] in
  let body1 := Example.response_body 7 [ Example.hit 1.5 ] buckets in
  let body2 := Example.response_body 7 [ Example.hit_without_source ]
                 buckets in
  let run1 :=
    graccQuery (P := Example.platform)
      (Example.answers (Example.ok_response body1))
      Example.day_start Example.day_end "1h" None in
  let run2 :=
    graccQuery (P := Example.platform)
      (Example.answers (Example.ok_response body2))
      Example.day_start Example.day_end "1h" None in
  field body1 "took" = field body2 "took" /\
  path body1 [ Key "aggregations"; Key "EndTime"; Key "buckets" ] =
  path body2 [ Key "aggregations"; Key "EndTime"; Key "buckets" ] /\
  outcome run1 =
    Normal (AnalysisResult_object
              {| took := 7; sumJobs := 10; sumCpuHours := 2.5;
                 dataPoints :=
                   [ {| timestamp := "2023-01-10T19:00:00.000Z";
                        nJobs := 10; cpuHours := 2.5 |} ] |}) /\
  outcome run2 = Throw TypeError /\
  writes (trace run2) = [ ("responseOut.json", JSON_stringify body2 None) ].
Proof.
  repeat split.
Qed.

(** * Further properties of [graccQuery] *)

Section Failures.

Context {P : Platform}.

Lemma add_Njobs_throws (acc bucket : value) (e : exn) :
  add_Njobs acc bucket = Throw e -> e = TypeError.
Proof.
  unfold add_Njobs. intros H.
  apply bind_Throw in H as [H | (n & _ & H)];
    [exact (get_throws _ _ H) |].
  apply bind_Throw in H as [H | (v & _ & H)];
    [exact (get_throws _ _ H) |].
  exact (plus_throws _ _ H).
Qed.

Lemma add_CoreHours_or_doc_count_throws (acc bucket : value) (e : exn) :
  add_CoreHours_or_doc_count acc bucket = Throw e -> e = TypeError.
Proof.
  unfold add_CoreHours_or_doc_count. intros H.
  apply bind_Throw in H as [H | (c & _ & H)];
    [exact (get_throws _ _ H) |].
  apply bind_Throw in H as [H | (v & _ & H)];
    [exact (get_throws _ _ H) |].
  apply bind_Throw in H as [H | (s & _ & H)];
    [exact (plus_throws _ _ H) |].
  destruct (truthy s); [discriminate H | exact (get_throws _ _ H)].
Qed.

Lemma dataPoint_throws (bucket : value) (e : exn) :
  dataPoint bucket = Throw e -> e = TypeError.
Proof.
  unfold dataPoint. intros H.
  repeat (apply bind_Throw in H as [H | (? & _ & H)];
          [exact (get_throws _ _ H) |]).
  discriminate H.
Qed.

Lemma map_elems_throws (cb : value -> completion value) :
  (forall x e, cb x = Throw e -> e = TypeError) ->
  forall l e, Array.map_elems cb l = Throw e -> e = TypeError.
Proof.
  intros Hcb. induction l as [|x l IH]; simpl; intros e H.
  - discriminate H.
  - apply bind_Throw in H as [H | (y & _ & H)];
      [eapply Hcb; exact H |].
    apply bind_Throw in H as [H | (ys & _ & H)];
      [eapply IH; exact H |].
    discriminate H.
Qed.

Lemma reduce_throws (arr init : value)
    (cb : value -> value -> completion value) (e : exn) :
  (forall acc x e, cb acc x = Throw e -> e = TypeError) ->
  Array.reduce arr cb init = Throw e -> e = TypeError.
Proof.
  intros Hcb. destruct arr; simpl; intros H;
    try (injection H as <-; reflexivity).
  eapply reduce_from_throws; [| exact H]. exact Hcb.
Qed.

Lemma craft_result_throws (body : value) (e : exn) :
  craft_result body = Throw e -> e = TypeError.
Proof.
  unfold craft_result. intros H.
  do 4 (apply bind_Throw in H as [H | (? & _ & H)];
        [exact (get_throws _ _ H) |]).
  apply bind_Throw in H as [H | (sumJobs & _ & H)];
    [eapply reduce_throws; [| exact H];
     intros acc bucket e'; apply add_Njobs_throws |].
  apply bind_Throw in H as [H | (sumCpuHours & _ & H)];
    [eapply reduce_throws; [| exact H];
     intros acc bucket e'; apply add_CoreHours_or_doc_count_throws |].
  apply bind_Throw in H as [H | (points & _ & H)]; [| discriminate H].
  unfold Array.map in H.
  match type of H with
  | match ?b with _ => _ end = _ => destruct b
  end; try (injection H as <-; reflexivity).
  apply bind_Throw in H as [H | (ys & _ & H)]; [| discriminate H].
  eapply map_elems_throws; [| exact H].
  intros bucket e'. apply dataPoint_throws.
Qed.

Lemma reduce_from_add_hit_CoreHours (hs : list value) :
  forall acc total,
  Array.reduce_from add_hit_CoreHours hs acc = Normal total ->
  exists hours,
    Forall2 (fun h c => get2 h "_source" "CoreHours" = Normal c) hs hours /\
    sum_values acc hours = Normal total.
Proof.
  induction hs as [|h hs IH]; simpl; intros acc total H.
  - exists []. split; [constructor | exact H].
  - apply bind_Normal in H as (acc' & Hstep & H).
    unfold add_hit_CoreHours in Hstep.
    apply bind_Normal in Hstep as (s & Hs & Hstep).
    apply bind_Normal in Hstep as (c & Hc & Hplus).
    destruct (IH _ _ H) as (hours & Hhours & Hsum).
    exists (c :: hours). split.
    + constructor; [| exact Hhours].
      unfold get2. rewrite Hs. exact Hc.
    + simpl. rewrite Hplus. exact Hsum.
Qed.

End Failures.

(** X1. On an OK response whose body has parsed, the only value that the
    call sends to [console.log] is [totalJobs], the sum of
    [_source.CoreHours] over the elements of [body.hits.hits], added from
    left to right starting from 0; on a body of the shape [Root] it is the
    number that these CPU hours sum to, and it is logged between the two
    writes. *)
Theorem totalJobs_logged {P : Platform}
    (fetch : string -> RequestInit -> completion Response)
    (start end_ : instant) (interval : string) (offset : option float)
    (init : RequestInit) (res : Response) (body : value) :
  let run := graccQuery fetch start end_ interval offset in
  request start end_ interval offset = Some init ->
  fetch search_url init = Normal res ->
  ok res = true ->
  json res = Normal body ->
  (forall v, In (ConsoleLog v) (trace run) ->
     exists hs hours,
       body_hits body = Some hs /\
       Forall2 (fun h c => get2 h "_source" "CoreHours" = Normal c)
         hs hours /\
       sum_values (VNum 0) hours = Normal v) /\
  (forall r, as_Root body = Some r ->
     exists result : AnalysisResult,
       trace run =
         [ Fetch search_url init;
           WriteFile "responseOut.json" (JSON_stringify body None)
             "failed to write to response body output file";
           ConsoleLog
             (VNum (sum_of (List.map source_CoreHours (hits_hits r))));
           WriteFile "dataOut.json"
             (JSON_stringify (AnalysisResult_object result) (Some 2))
             "failed to write to data output file" ]).
Proof.
  intros run Hinit Hres Hok Hbody. subst run. split.
  - intros v.
    rewrite (graccQuery_succeeded _ _ _ _ _ Hinit Hres Hok). rewrite Hbody.
    simpl.
    destruct (total_hits_CoreHours body) as [totalJobs|e] eqn:Htotal.
    + intros Hlogged.
      assert (totalJobs = v) as ->.
      { destruct (craft_result body); simpl in Hlogged;
          repeat (destruct Hlogged as [Hlogged | Hlogged];
                  [congruence |]);
          contradiction. }
      destruct (body_hits body) as [hs|] eqn:Hhs;
        [| rewrite (total_hits_CoreHours_missing _ Hhs) in Htotal;
           discriminate Htotal].
      rewrite (total_hits_CoreHours_reads _ Hhs) in Htotal.
      apply reduce_from_add_hit_CoreHours in Htotal as (hours & Hread & Hsum).
      exists hs, hours. repeat split; assumption.
    + simpl. intros [H | [H | []]]; discriminate H.
  - intros r Hr. exists (analyse r).
    rewrite (graccQuery_typed _ _ _ _ _ Hinit Hres Hok Hbody Hr).
    unfold total_CoreHours. rewrite fold_left_sum. reflexivity.
Qed.

(** The hits with 1.5 and 2 CPU hours: 3.5 is logged. *)
Lemma totalJobs_logged_witness :
  In (ConsoleLog (VNum 3.5))
     (trace (graccQuery (P := Example.platform)
               (Example.answers (Example.ok_response Example.two_buckets))
               Example.day_start Example.day_end "1h" None)).
Proof.
  destruct (@totalJobs_logged Example.platform
              (Example.answers (Example.ok_response Example.two_buckets))
              Example.day_start Example.day_end "1h" None _ _ _
              eq_refl eq_refl eq_refl eq_refl)
    as (_ & Htyped).
  destruct (Htyped
              {| Root_took := 7;
                 hits_hits := [ {| source_CoreHours := 1.5 |};
                                {| source_CoreHours := 2 |} ];
                 EndTime_buckets :=
                   [ {| key_as_string := "2023-01-10T19:00:00.000Z";
                        doc_count := 3; Njobs_value := 10;
                        CoreHours_value := 2.5 |};
                     {| key_as_string := "2023-01-10T20:00:00.000Z";
                        doc_count := 4; Njobs_value := 20;
                        CoreHours_value := 4 |} ] |}
              eq_refl)
    as (result & Htrace).
  rewrite Htrace. right. right. left. reflexivity.
Defined.

(** X2. Once the body of an OK response has parsed, the only way the call
    fails is a TypeError, thrown by one of the unguarded reads of lines
    126-148; the raw body has been written by then, and nothing has been
    sent to [console.error]. *)
Theorem success_path_throws_TypeError {P : Platform}
    (fetch : string -> RequestInit -> completion Response)
    (start end_ : instant) (interval : string) (offset : option float)
    (init : RequestInit) (res : Response) (body : value) (e : exn) :
  let run := graccQuery fetch start end_ interval offset in
  request start end_ interval offset = Some init ->
  fetch search_url init = Normal res ->
  ok res = true ->
  json res = Normal body ->
  outcome run = Throw e ->
  e = TypeError /\
  writes (trace run) = [ ("responseOut.json", JSON_stringify body None) ] /\
  errors (trace run) = [].
Proof.
  intros run Hinit Hres Hok Hbody. subst run.
  rewrite (graccQuery_succeeded _ _ _ _ _ Hinit Hres Hok). rewrite Hbody.
  simpl.
  destruct (total_hits_CoreHours body) as [totalJobs|e'] eqn:Htotal.
  - destruct (craft_result body) as [result|e'] eqn:Hcraft;
      simpl; intros H; [discriminate H |].
    injection H as ->. apply craft_result_throws in Hcraft.
    repeat split. exact Hcraft.
  - simpl. intros H. injection H as ->.
    apply total_hits_CoreHours_throws in Htotal.
    repeat split. exact Htotal.
Qed.

(** The body [{}]. *)
Lemma success_path_throws_TypeError_witness :
  let run :=
    graccQuery (P := Example.platform)
      (Example.answers (Example.ok_response (VObj [])))
      Example.day_start Example.day_end "1h" None in
  outcome run = Throw TypeError /\
  writes (trace run) = [ ("responseOut.json", JSON_stringify (VObj []) None) ].
Proof.
  destruct (@success_path_throws_TypeError Example.platform
              (Example.answers (Example.ok_response (VObj [])))
              Example.day_start Example.day_end "1h" None _ _ _ TypeError
              eq_refl eq_refl eq_refl eq_refl eq_refl)
    as (_ & Hwrites & _).
  split; [reflexivity | exact Hwrites].
Defined.

(** X3. A result that is returned is the object literal of lines 135-148:
    its own properties are [took], [sumJobs], [sumCpuHours] and
    [dataPoints], in this order, [took] is the [took] of the body as it was
    received ([undefined] when the body has none) and [dataPoints] is an
    array. *)
Theorem result_shape {P : Platform}
    (fetch : string -> RequestInit -> completion Response)
    (start end_ : instant) (interval : string) (offset : option float)
    (init : RequestInit) (res : Response) (body result : value) :
  let run := graccQuery fetch start end_ interval offset in
  request start end_ interval offset = Some init ->
  fetch search_url init = Normal res ->
  ok res = true ->
  json res = Normal body ->
  outcome run = Normal result ->
  exists (jobs_sum hours_total : value) (points : list value),
    result =
      VObj [ ("took", match field body "took" with
                      | Some t => t
                      | None => VUndefined
                      end);
             ("sumJobs", jobs_sum);
             ("sumCpuHours", hours_total);
             ("dataPoints", VArr points) ].
Proof.
  intros run Hinit Hres Hok Hbody Hrun. subst run.
  destruct (graccQuery_returns _ _ _ _ _ Hinit Hres Hok Hrun)
    as (body' & totalJobs & Hbody' & _ & Hcraft & _).
  assert (body' = body) by congruence. subst body'.
  destruct (body_buckets body) as [raw|] eqn:Hraw;
    [| rewrite (craft_result_missing _ Hraw) in Hcraft; discriminate Hcraft].
  rewrite (craft_result_reads _ Hraw) in Hcraft.
  apply bind_Normal in Hcraft as (jobs_sum & _ & Hcraft).
  apply bind_Normal in Hcraft as (hours_total & _ & Hcraft).
  apply bind_Normal in Hcraft as (points & _ & Hcraft).
  injection Hcraft as <-.
  exists jobs_sum, hours_total, points. reflexivity.
Qed.

(** The response with two buckets, which took 7 ms. *)
Lemma result_shape_witness :
  exists (jobs_sum hours_total : value) (points : list value),
    outcome (graccQuery (P := Example.platform)
               (Example.answers (Example.ok_response Example.two_buckets))
               Example.day_start Example.day_end "1h" None) =
    Normal (VObj [ ("took", VNum 7);
                   ("sumJobs", jobs_sum);
                   ("sumCpuHours", hours_total);
                   ("dataPoints", VArr points) ]).
Proof.
  destruct (@result_shape Example.platform
              (Example.answers (Example.ok_response Example.two_buckets))
              Example.day_start Example.day_end "1h" None _ _ _ _
              eq_refl eq_refl eq_refl eq_refl eq_refl)
    as (jobs_sum & hours_total & points & Hresult).
  exists jobs_sum, hours_total, points. exact (f_equal Normal Hresult).
Defined.

(** X4. The request goes to the [_search] end point of the summary index
    of the GRACC service; the query asks for 100 hits, bounds the histogram
    by the rendered [start] and [end], and has no [offset] (the property is
    [undefined], which [JSON.stringify] leaves out) exactly when the
    call is given none. *)
Theorem query_bounds {P : Platform}
    (fetch : string -> RequestInit -> completion Response)
    (start end_ : instant) (interval : string) (offset : option float)
    (init : RequestInit) :
  request start end_ interval offset = Some init ->
  requests (trace (graccQuery fetch start end_ interval offset)) =
    [ ("https://gracc.opensciencegrid.org:443/q/gracc.osg.summary/_search?pretty",
       init) ] /\
  path (posted init) [ Key "size" ] = Some (VNum 100) /\
  (exists startStr endStr,
     render start = Normal startStr /\
     render end_ = Normal endStr /\
     path (posted init)
       [ Key "aggs"; Key "EndTime"; Key "date_histogram";
         Key "extended_bounds" ] =
       Some (VObj [ ("min", VStr startStr); ("max", VStr endStr) ])) /\
  (path (posted init)
     [ Key "aggs"; Key "EndTime"; Key "date_histogram"; Key "offset" ] =
     Some VUndefined <-> offset = None).
Proof.
  intros Hinit. rewrite graccQuery_requests, Hinit.
  destruct (request_rendered _ _ _ _ Hinit) as (s & e & Hs & He & ->).
  split; [reflexivity |]. split; [reflexivity |]. split.
  - exists s, e. repeat split; assumption.
  - destruct offset; simpl; split; intros H;
      try discriminate H; reflexivity.
Qed.

(** A day given by two strings, without offset. *)
Lemma query_bounds_witness :
  exists init : RequestInit,
    requests (trace (graccQuery (P := Example.platform)
                       (Example.answers
                          (Example.ok_response Example.two_buckets))
                       Example.day_start Example.day_end "1h" None)) =
      [ ("https://gracc.opensciencegrid.org:443/q/gracc.osg.summary/_search?pretty",
         init) ] /\
    path (posted init) [ Key "size" ] = Some (VNum 100).
Proof.
  destruct (@query_bounds Example.platform
              (Example.answers (Example.ok_response Example.two_buckets))
              Example.day_start Example.day_end "1h" None _ eq_refl)
    as (Hrequests & Hsize & _).
  eexists. split; [exact Hrequests | exact Hsize].
Defined.
